(** * Data-Visualizer: a shallow embedding of [app.py]

    The script lists the objects of an S3 bucket, lets the operator pick one
    on the console, downloads it, parses it as CSV, lets the operator pick a
    column and a plot type, draws one chart with matplotlib and returns the
    saved image as base64 text.

    Python values are modelled by Rocq data, Python exceptions by the [Raise]
    outcome of a state-and-exception monad over the process state [world]
    (console, file system, calls made to the plotting engine).  The services
    the script calls but does not define (the [int] and [str.lower] builtins,
    the S3 client, [pandas.read_csv], matplotlib) are variables of the
    section that holds the program. *)

From Stdlib Require Import ZArith NArith QArith Lia List Ascii.
From Stdlib Require Strings.Byte.
From stdpp Require Import base strings gmap list pretty.

Local Open Scope string_scope.
Local Open Scope list_scope.
Local Open Scope Z_scope.

(** ** Exceptions and outcomes *)

(** The exception classes the script can meet.  [LibraryError cls msg]
    stands for any other class derived from [Exception] that a library
    raises (botocore's [ClientError], [OSError], pandas' [ParserError], ...).
    [SystemExit] derives from [BaseException] only. *)
Inductive exn : Type :=
  | ValueError (msg : string)
  | IndexError (msg : string)
  | KeyError (key : string)
  | TypeError (msg : string)
  | EOFError
  | LibraryError (cls msg : string)
  | SystemExit (code : Z).

(** [isinstance(e, Exception)] *)
Definition is_Exception (e : exn) : bool :=
  match e with
  | SystemExit _ => false
  | _ => true
  end.

(** [isinstance(e, (ValueError, IndexError))] *)
Definition is_ValueError_or_IndexError (e : exn) : bool :=
  match e with
  | ValueError _ | IndexError _ => true
  | _ => false
  end.

(** [str(e)], as the f-string [{e}] formats it. *)
Definition exn_str (e : exn) : string :=
  match e with
  | ValueError msg | IndexError msg | TypeError msg => msg
  | KeyError key => "'" +:+ key +:+ "'"
  | EOFError => ""
  | LibraryError _ msg => msg
  | SystemExit code => pretty code
  end.

Inductive result (A : Type) : Type :=
  | Ok (a : A)
  | Raise (e : exn).
Arguments Ok {A} a.
Arguments Raise {A} e.

(** ** Tables *)

(** A column of a DataFrame: numeric ([int64]/[float64], values kept as
    rationals) or [object] (text). *)
Inductive series : Type :=
  | NumSeries (values : list Q)
  | ObjSeries (values : list string).

Definition is_numeric (s : series) : bool :=
  match s with
  | NumSeries _ => true
  | ObjSeries _ => false
  end.

(** A DataFrame: its named columns, in order. *)
Definition dataframe : Type := list (string * series).

Definition columns (df : dataframe) : list string := map fst df.

(** ** Calls to the plotting engine *)

(** One constructor per [matplotlib.pyplot] function the script calls, with
    the arguments the script passes. *)
Inductive plt_call : Type :=
  | plt_figure (figsize : Z * Z)
  | plt_scatter (x y : series) (label : string)
  | plt_plot (x y : series) (marker linestyle label : string)
  | plt_hist (x : series) (bins : Z) (label : string) (rwidth : Q)
  | plt_bar (x height : series) (label : string)
  | plt_pie (x labels : series) (autopct : string)
  | plt_xlabel (xlabel : string)
  | plt_ylabel (ylabel : string)
  | plt_title (label : string)
  | plt_xticks (rotation : Z) (ha : string)
  | plt_tight_layout
  | plt_legend
  | plt_savefig (fname : string)
  | plt_close.

(** ** Process state *)

Record world : Type := World {
  environ : gmap string string;      (* os.environ *)
  stdin : list string;               (* console lines not read yet *)
  stdout : list string;              (* text written to sys.stdout, in order *)
  stderr : list string;              (* text written to sys.stderr, in order *)
  fs : gmap string (list Byte.byte); (* local files, by path *)
  plt_log : list plt_call            (* pyplot calls made so far, in order *)
}.

Definition set_stdin (l : list string) (w : world) : world :=
  World (environ w) l (stdout w) (stderr w) (fs w) (plt_log w).
Definition write_stdout (s : string) (w : world) : world :=
  World (environ w) (stdin w) (stdout w ++ [s]) (stderr w) (fs w) (plt_log w).
Definition write_stderr (s : string) (w : world) : world :=
  World (environ w) (stdin w) (stdout w) (stderr w ++ [s]) (fs w) (plt_log w).
Definition write_file (path : string) (data : list Byte.byte) (w : world)
    : world :=
  World (environ w) (stdin w) (stdout w) (stderr w) (<[path := data]> (fs w))
        (plt_log w).
Definition log_call (c : plt_call) (w : world) : world :=
  World (environ w) (stdin w) (stdout w) (stderr w) (fs w) (plt_log w ++ [c]).

(** ** The monad: state passing, with exceptions *)

Definition M (A : Type) : Type := world -> result A * world.

Definition ret {A} (a : A) : M A := fun w => (Ok a, w).
Definition raise {A} (e : exn) : M A := fun w => (Raise e, w).
Definition bind {A B} (m : M A) (k : A -> M B) : M B :=
  fun w =>
    match m w with
    | (Ok a, w') => k a w'
    | (Raise e, w') => (Raise e, w')
    end.
Definition lift {A} (r : result A) : M A := fun w => (r, w).

Declare Scope py_scope.
Delimit Scope py_scope with py.
Notation "x <- m ;; k" := (bind m (fun x => k))
  (at level 100, m at next level, right associativity) : py_scope.
Notation "m ;; k" := (bind m (fun _ => k))
  (at level 100, right associativity) : py_scope.
Local Open Scope py_scope.

(** [try: body  except <classes> as e: handler e] *)
Definition try_except {A} (body : M A) (caught : exn -> bool)
    (handler : exn -> M A) : M A :=
  fun w =>
    match body w with
    | (Ok a, w') => (Ok a, w')
    | (Raise e, w') => if caught e then handler e w' else (Raise e, w')
    end.

(** ** Builtins *)

Definition nl : string := String "010"%char "".

(** [print(s)]: the text and a newline go to [sys.stdout]. *)
Definition print (s : string) : M unit :=
  fun w => (Ok tt, write_stdout (s +:+ nl) w).

(** [input(prompt)]: the prompt goes to [sys.stdout], then one line is read;
    at the end of the input [EOFError] is raised. *)
Definition input (prompt : string) : M string :=
  fun w =>
    match stdin w with
    | [] => (Raise EOFError, write_stdout prompt w)
    | l :: rest => (Ok l, set_stdin rest (write_stdout prompt w))
    end.

(** [sys.exit(code)] *)
Definition sys_exit {A} (code : Z) : M A := raise (SystemExit code).

(** [os.environ.get(key, default)] *)
Definition environ_get (key fallback : string) : M string :=
  fun w => (Ok (default fallback (environ w !! key)), w).

(** [seq[i]] for a Python sequence: a negative index counts from the end,
    an index outside [-len, len) raises [IndexError]. *)
Definition getitem {A} (l : list A) (i : Z) : result A :=
  let n := Z.of_nat (length l) in
  let j := if i <? 0 then i + n else i in
  if (j <? 0) || (n <=? j) then Raise (IndexError "list index out of range")
  else match l !! Z.to_nat j with
       | Some x => Ok x
       | None => Raise (IndexError "list index out of range")
       end.

(** [os.path.basename(p)] (posixpath): what follows the last slash. *)
Fixpoint basename_aux (acc p : string) : string :=
  match p with
  | EmptyString => acc
  | String c rest =>
      if Ascii.eqb c "/"%char then basename_aux "" rest
      else basename_aux (acc +:+ String c "") rest
  end.
Definition basename (p : string) : string := basename_aux "" p.

Fixpoint ends_with_slash (a : string) : bool :=
  match a with
  | EmptyString => false
  | String c EmptyString => Ascii.eqb c "/"%char
  | String _ rest => ends_with_slash rest
  end.

(** [os.path.join(a, b)] (posixpath, two arguments). *)
Definition path_join (a b : string) : string :=
  match b with
  | String "/"%char _ => b
  | _ =>
      match a with
      | EmptyString => b
      | _ => if ends_with_slash a then a +:+ b else a +:+ "/" +:+ b
      end
  end.

(** [d[key]] on a dict whose member [key] is optional: [KeyError] when the
    dict has no such member. *)
Definition subscript {A} (key : string) (member : option A) : result A :=
  match member with
  | Some v => Ok v
  | None => Raise (KeyError key)
  end.

(** A list comprehension [[f x for x in l]] whose element expression can
    raise: elements are evaluated left to right, the first exception ends
    the comprehension. *)
Fixpoint comprehension {A B} (f : A -> result B) (l : list A)
    : result (list B) :=
  match l with
  | [] => Ok []
  | x :: rest =>
      match f x with
      | Raise e => Raise e
      | Ok y =>
          match comprehension f rest with
          | Raise e => Raise e
          | Ok ys => Ok (y :: ys)
          end
      end
  end.

(** [df[name]]: the column of that name, [KeyError] when there is none. *)
Fixpoint df_getitem (df : dataframe) (name : string) : result series :=
  match df with
  | [] => Raise (KeyError name)
  | (c, s) :: rest => if String.eqb c name then Ok s else df_getitem rest name
  end.

(** [with open(path, 'rb') as f: f.read()] *)
Definition read_file (path : string) : M (list Byte.byte) :=
  fun w =>
    match fs w !! path with
    | Some data => (Ok data, w)
    | None => (Raise (LibraryError "FileNotFoundError" path), w)
    end.

(** ** The storage service *)

(** The response of [list_objects_v2] is a dict; every member is optional
    (an empty bucket's response has no ['Contents']). *)
Record s3_object : Type := S3Object {
  Key : option string;
  Size : option Z
}.

Record list_objects_v2_output : Type := ListObjectsV2Output {
  Contents : option (list s3_object);
  KeyCount : option Z;
  IsTruncated : option bool
}.

(** The two methods of the client the script uses.  [download_file bucket
    key path] yields the object's bytes, which are written to [path]. *)
Record s3_client : Type := S3Client {
  list_objects_v2 : string -> result list_objects_v2_output;
  download_file : string -> string -> string -> result (list Byte.byte)
}.

(** ** The plotting engine *)

(** What matplotlib does is not in the script: [plt_raises log c] says
    whether the call [c], made after the calls [log], raises;
    [plt_render log] is the image file [savefig] writes for the figure the
    calls [log] have built. *)
Record pyplot : Type := Pyplot {
  plt_raises : list plt_call -> plt_call -> option exn;
  plt_render : list plt_call -> list Byte.byte
}.

(** The figures open after a sequence of calls: [figure] opens one, [close]
    closes the current one. *)
Fixpoint open_figures (log : list plt_call) (n : nat) : nat :=
  match log with
  | [] => n
  | plt_figure _ :: rest => open_figures rest (S n)
  | plt_close :: rest => open_figures rest (Nat.pred n)
  | _ :: rest => open_figures rest n
  end.

Definition is_draw_call (c : plt_call) : bool :=
  match c with
  | plt_scatter _ _ _ | plt_plot _ _ _ _ _ | plt_hist _ _ _ _
  | plt_bar _ _ _ | plt_pie _ _ _ => true
  | _ => false
  end.

(** ** Base64 *)

Module Base64.
Local Open Scope N_scope.

Definition alphabet : list Byte.byte :=
  String.list_byte_of_string
    "ABCDEFGHIJKLMNOPQRSTUVWXYZabcdefghijklmnopqrstuvwxyz0123456789+/".

Definition pad : Byte.byte := Byte.x3d.   (* '=' *)

(** The character of a 6-bit group. *)
Definition b64_char (i : N) : Byte.byte := nth (N.to_nat i) alphabet pad.

Fixpoint index_of (c : Byte.byte) (l : list Byte.byte) (pos : N) : option N :=
  match l with
  | [] => None
  | d :: rest => if Byte.eqb c d then Some pos else index_of c rest (pos + 1)
  end.

(** The 6-bit group of a character of the alphabet. *)
Definition b64_index (c : Byte.byte) : option N := index_of c alphabet 0.

(** [base64.b64encode(data)]: three bytes make a 24-bit group that is
    written as four characters; a last group of one or two bytes is
    padded with zero bits and completed with '='. *)
Fixpoint b64encode (data : list Byte.byte) : list Byte.byte :=
  match data with
  | [] => []
  | [a] =>
      let n := Byte.to_N a * 65536 in
      [b64_char (n / 262144); b64_char (n / 4096 mod 64); pad; pad]
  | [a; b] =>
      let n := Byte.to_N a * 65536 + Byte.to_N b * 256 in
      [b64_char (n / 262144); b64_char (n / 4096 mod 64);
       b64_char (n / 64 mod 64); pad]
  | a :: b :: c :: rest =>
      let n := Byte.to_N a * 65536 + Byte.to_N b * 256 + Byte.to_N c in
      b64_char (n / 262144) :: b64_char (n / 4096 mod 64)
        :: b64_char (n / 64 mod 64) :: b64_char (n mod 64)
        :: b64encode rest
  end.

(** The decoder of RFC 4648, the inverse the returned text is meant for:
    four characters give back a 24-bit group; '=' may only end the text. *)
Fixpoint b64decode (text : list Byte.byte) : option (list Byte.byte) :=
  match text with
  | [] => Some []
  | c1 :: c2 :: c3 :: c4 :: rest =>
      s1 ← b64_index c1;
      s2 ← b64_index c2;
      if Byte.eqb c3 pad then
        match rest with
        | [] =>
            if Byte.eqb c4 pad then
              b1 ← Byte.of_N ((s1 * 262144 + s2 * 4096) / 65536);
              Some [b1]
            else None
        | _ => None
        end
      else
        s3 ← b64_index c3;
        if Byte.eqb c4 pad then
          match rest with
          | [] =>
              let n := s1 * 262144 + s2 * 4096 + s3 * 64 in
              b1 ← Byte.of_N (n / 65536);
              b2 ← Byte.of_N (n / 256 mod 256);
              Some [b1; b2]
          | _ => None
          end
        else
          s4 ← b64_index c4;
          let n := s1 * 262144 + s2 * 4096 + s3 * 64 + s4 in
          b1 ← Byte.of_N (n / 65536);
          b2 ← Byte.of_N (n / 256 mod 256);
          b3 ← Byte.of_N (n mod 256);
          tail ← b64decode rest;
          Some (b1 :: b2 :: b3 :: tail)
  | _ => None
  end.

(** One entry of the table: its character gives the index back and is not
    the padding character. *)
Definition table_entry_ok (k : nat) : bool :=
  let i := N.of_nat k in
  match b64_index (b64_char i) with
  | Some j => (j =? i) && negb (Byte.eqb (b64_char i) pad)
  | None => false
  end.
End Base64.

(** [bytes.decode('utf-8')].  A [string] holds the UTF-8 code units of the
    text, so decoding keeps the bytes; base64 text is ASCII
    ([Base64Facts.b64encode_ascii] below), for which decoding cannot fail. *)
Definition decode_utf8 (data : list Byte.byte) : string :=
  String.string_of_list_byte data.

(** [str.encode('utf-8')] *)
Definition encode_utf8 (s : string) : list Byte.byte :=
  String.list_byte_of_string s.

(** ** The script *)

Definition dataset_prompt : string := "Enter the number of the dataset: ".
Definition column_prompt : string := "Enter the number of the column: ".
Definition invalid_selection : string :=
  "Invalid selection. Please enter a valid number.".
Definition plot_type_prompt : string :=
  "Enter the type of plot ('scatter', 'line', 'hist', 'bar', or 'pie'): ".
Definition invalid_plot_type : string :=
  "Invalid plot type. Please enter 'scatter', 'line', 'hist', 'bar', or 'pie'.".
Definition plot_types : list string :=
  ["scatter"; "line"; "hist"; "bar"; "pie"].

Section Script.

(** [int(s)] on a string: [None] stands for [ValueError]. *)
Variable int : string -> option Z.
(** [s.lower()] *)
Variable lower : string -> string.
(** [boto3.client(service)] *)
Variable boto3_client : string -> result s3_client.
(** The parser behind [pd.read_csv], on the bytes of the file. *)
Variable parse_csv : list Byte.byte -> result dataframe.
(** [matplotlib.pyplot] *)
Variable plt : pyplot.

Definition int_of_input (s : string) : result Z :=
  match int s with
  | Some n => Ok n
  | None => Raise (ValueError "invalid literal for int() with base 10")
  end.

(** A call to pyplot: the call is made (and logged); it raises when the
    engine says so; a successful [savefig] writes the image file. *)
Definition call (c : plt_call) : M unit :=
  fun w =>
    let w' := log_call c w in
    match plt_raises plt (plt_log w) c with
    | Some e => (Raise e, w')
    | None =>
        match c with
        | plt_savefig fname =>
            (Ok tt, write_file fname (plt_render plt (plt_log w)) w')
        | _ => (Ok tt, w')
        end
    end.

(** [s3.download_file(bucket, key, path)] *)
Definition s3_download_file (s3 : s3_client) (bucket key path : string)
    : M unit :=
  fun w =>
    match download_file s3 bucket key path with
    | Ok data => (Ok tt, write_file path data w)
    | Raise e => (Raise e, w)
    end.

(** [pd.read_csv(path)] *)
Definition read_csv (path : string) : M dataframe :=
  data <- read_file path ;; lift (parse_csv data).

(** app.py, lines 9-19 *)
Definition list_files_in_s3_bucket (bucket_name : string) : M (list string) :=
  s3 <- lift (boto3_client "s3") ;;
  response <- lift (list_objects_v2 s3 bucket_name) ;;
  contents <- lift (subscript "Contents" (Contents response)) ;;
  files <-
    lift (comprehension (fun obj => subscript "Key" (Key obj)) contents) ;;
  ret files.

(** app.py, lines 21-40 *)
Definition download_file_from_s3 (bucket_name file_key local_dir : string)
    : M string :=
  s3 <- lift (boto3_client "s3") ;;
  try_except
    (let local_path := path_join local_dir (basename file_key) in
     s3_download_file s3 bucket_name file_key local_path ;;
     print ("File downloaded successfully to: " +:+ local_path) ;;
     ret local_path)
    is_Exception
    (fun e =>
       print ("Error downloading file from S3: " +:+ exn_str e) ;;
       sys_exit 1).

(** The [if]/[elif] chain of app.py, lines 56-65; there is no [else]. *)
Definition draw (df : dataframe) (x_column y_column plot_type : string)
    : M unit :=
  if String.eqb plot_type "scatter" then
    x <- lift (df_getitem df x_column) ;;
    y <- lift (df_getitem df y_column) ;;
    call (plt_scatter x y y_column)
  else if String.eqb plot_type "line" then
    x <- lift (df_getitem df x_column) ;;
    y <- lift (df_getitem df y_column) ;;
    call (plt_plot x y "o" "-" y_column)
  else if String.eqb plot_type "hist" then
    y <- lift (df_getitem df y_column) ;;
    call (plt_hist y 10 y_column (8 # 10))
  else if String.eqb plot_type "bar" then
    x <- lift (df_getitem df x_column) ;;
    y <- lift (df_getitem df y_column) ;;
    call (plt_bar x y y_column)
  else if String.eqb plot_type "pie" then
    y <- lift (df_getitem df y_column) ;;
    x <- lift (df_getitem df x_column) ;;
    call (plt_pie y x "%1.1f%%")
  else ret tt.

(** app.py, lines 42-87 *)
Definition visualize_data (df : dataframe)
    (output_dir selected_column plot_type : string) : M string :=
  call (plt_figure (10, 6)) ;;
  x_column <- lift (getitem (columns df) 0) ;;
  let y_column := selected_column in
  draw df x_column y_column plot_type ;;
  call (plt_xlabel x_column) ;;
  call (plt_ylabel y_column) ;;
  call (plt_title "Data Visualization") ;;
  call (plt_xticks 45 "right") ;;
  call plt_tight_layout ;;
  call plt_legend ;;
  let output_file := path_join output_dir "plot.png" in
  call (plt_savefig output_file) ;;
  call plt_close ;;
  print ("Plot saved successfully to: " +:+ output_file) ;;
  image_data <- read_file output_file ;;
  let base64_image := decode_utf8 (Base64.b64encode image_data) in
  ret base64_image.

(** [for i, item in enumerate(items, start=1): print(f"{i}. {item}")] *)
Fixpoint print_numbered (i : Z) (items : list string) : M unit :=
  match items with
  | [] => ret tt
  | item :: rest =>
      print (pretty i +:+ ". " +:+ item) ;;
      print_numbered (i + 1) rest
  end.

(** One round of the [while True] loops of lines 104-110 and 124-130:
    [Some x] is the [break] with the selection, [None] the handled
    error. *)
Definition selection_round (prompt : string) (items : list string)
    : M (option string) :=
  try_except
    (line <- input prompt ;;
     selection <- lift (int_of_input line) ;;
     selected <- lift (getitem items (selection - 1)) ;;
     ret (Some selected))
    is_ValueError_or_IndexError
    (fun _ => print invalid_selection ;; ret None).

(** The loop.  Every round reads one console line, so the rounds are
    counted by the lines still to be read; [selection_loop_unfold] below
    gives the loop in terms of [selection_round]. *)
Fixpoint selection_rounds (prompt : string) (items : list string)
    (lines : list string) (w : world) : result string * world :=
  match selection_round prompt items w with
  | (Ok (Some selected), w') => (Ok selected, w')
  | (Raise e, w') => (Raise e, w')
  | (Ok None, w') =>
      match lines with
      | [] => (Raise EOFError, w')
      | _ :: rest => selection_rounds prompt items rest w'
      end
  end.

Definition selection_loop (prompt : string) (items : list string) : M string :=
  fun w => selection_rounds prompt items (stdin w) w.

(** Lines 133-136: the token read before the loop and in each round is
    lowercased; the loop runs while it is not one of the five types. *)
Fixpoint plot_type_rounds (plot_type : string) (lines : list string)
    (w : world) : result string * world :=
  if bool_decide (plot_type ∈ plot_types) then (Ok plot_type, w)
  else
    match (print invalid_plot_type ;; input plot_type_prompt) w with
    | (Raise e, w') => (Raise e, w')
    | (Ok line, w') =>
        match lines with
        | [] => (Raise EOFError, w')
        | _ :: rest => plot_type_rounds (lower line) rest w'
        end
    end.

Definition plot_type_loop : M string :=
  line <- input plot_type_prompt ;;
  (fun w => plot_type_rounds (lower line) (stdin w) w).

(** The request the driver forms: lines 92-136. *)
Definition plot_request : M (dataframe * string * string * string) :=
  bucket_name <- environ_get "S3_BUCKET_NAME" "datasetentries" ;;
  output_dir <- environ_get "OUTPUT_DIR" "/home/ec2-user/AWS_S3_FILES/" ;;
  files <- list_files_in_s3_bucket bucket_name ;;
  print "Select a dataset to visualize:" ;;
  print_numbered 1 files ;;
  selected_file <- selection_loop dataset_prompt files ;;
  local_path <- download_file_from_s3 bucket_name selected_file output_dir ;;
  df <- read_csv local_path ;;
  print "Select a column to visualize:" ;;
  print_numbered 1 (columns df) ;;
  selected_column <- selection_loop column_prompt (columns df) ;;
  plot_type <- plot_type_loop ;;
  ret (df, output_dir, selected_column, plot_type).

(** The [__main__] block: the request, then the render of line 139. *)
Definition main : M string :=
  request <- plot_request ;;
  let '(df, output_dir, selected_column, plot_type) := request in
  image_data <- visualize_data df output_dir selected_column plot_type ;;
  ret image_data.

(** How the interpreter ends the process: an uncaught [SystemExit] gives
    its code; any other uncaught exception is reported on [sys.stderr]
    and gives 1; a run that reaches the end gives 0. *)
Definition run_process (w : world) : Z * world :=
  match main w with
  | (Ok _, w') => (0, w')
  | (Raise (SystemExit code), w') => (code, w')
  | (Raise e, w') => (1, write_stderr ("Traceback: " +:+ exn_str e) w')
  end.

End Script.

(** ** Observations on a run *)

(** The state after the pyplot calls [cs] have been made and logged. *)
Definition log_calls (cs : list plt_call) (w : world) : world :=
  World (environ w) (stdin w) (stdout w) (stderr w) (fs w) (plt_log w ++ cs).

(** The pyplot calls made between two states of a run. *)
Definition calls_made (w w' : world) : list plt_call :=
  drop (length (plt_log w)) (plt_log w').

(** The axis labels of the current figure after a sequence of calls: a new
    figure has none, [xlabel] and [ylabel] set them. *)
Definition axis_labels_step (labels : option string * option string)
    (c : plt_call) : option string * option string :=
  match c with
  | plt_figure _ => (None, None)
  | plt_xlabel s => (Some s, snd labels)
  | plt_ylabel s => (fst labels, Some s)
  | _ => labels
  end.

Definition axis_labels (log : list plt_call) : option string * option string :=
  fold_left axis_labels_step log (None, None).

Definition is_savefig (c : plt_call) : bool :=
  match c with plt_savefig _ => true | _ => false end.

Definition is_close (c : plt_call) : bool :=
  match c with plt_close => true | _ => false end.

(** A call that is neither [savefig] nor [close]. *)
Definition before_save (c : plt_call) : Prop :=
  is_savefig c = false /\ c <> plt_close.

(** The table data a call hands to the engine. *)
Definition data_args (c : plt_call) : list series :=
  match c with
  | plt_scatter x y _ | plt_plot x y _ _ _ | plt_bar x y _ => [x; y]
  | plt_hist x _ _ _ => [x]
  | plt_pie x labels _ => [x; labels]
  | _ => []
  end.

(** The dispatch table of the renderer: the draw calls made for a plot
    type, given the first column [x] and the selected column [y]. *)
Inductive drawn_by (df : dataframe) (x y : string)
    : string -> list plt_call -> Prop :=
  | drawn_scatter xs ys :
      df_getitem df x = Ok xs -> df_getitem df y = Ok ys ->
      drawn_by df x y "scatter" [plt_scatter xs ys y]
  | drawn_line xs ys :
      df_getitem df x = Ok xs -> df_getitem df y = Ok ys ->
      drawn_by df x y "line" [plt_plot xs ys "o" "-" y]
  | drawn_hist ys :
      df_getitem df y = Ok ys ->
      drawn_by df x y "hist" [plt_hist ys 10 y (8 # 10)]
  | drawn_bar xs ys :
      df_getitem df x = Ok xs -> df_getitem df y = Ok ys ->
      drawn_by df x y "bar" [plt_bar xs ys y]
  | drawn_pie xs ys :
      df_getitem df x = Ok xs -> df_getitem df y = Ok ys ->
      drawn_by df x y "pie" [plt_pie ys xs "%1.1f%%"]
  | drawn_nothing tag :
      tag ∉ plot_types ->
      drawn_by df x y tag [].

(** The calls that follow the draw, up to the legend. *)
Definition decoration (x_column y_column : string) : list plt_call :=
  [plt_xlabel x_column; plt_ylabel y_column; plt_title "Data Visualization";
   plt_xticks 45 "right"; plt_tight_layout; plt_legend].

(** A draw call whose values are not numbers. *)
Definition non_numeric_values (c : plt_call) : bool :=
  match c with
  | plt_hist x _ _ _ | plt_pie x _ _ => negb (is_numeric x)
  | _ => false
  end.

(** An engine that refuses to draw a histogram or a pie of values that are
    not numbers. *)
Definition rejects_non_numeric (plt : pyplot) : Prop :=
  forall log c, non_numeric_values c = true -> is_Some (plt_raises plt log c).

(** A step that makes no pyplot call. *)
Definition keeps_log {A} (m : M A) : Prop :=
  forall w r w', m w = (r, w') -> plt_log w' = plt_log w.

(** The console after the prompt was written and one line read. *)
Definition prompted (prompt : string) (rest : list string) (w : world)
    : world :=
  set_stdin rest (write_stdout prompt w).

(** The console after a rejected line: prompt, line read, error message. *)
Definition rejected (prompt message : string) (rest : list string) (w : world)
    : world :=
  write_stdout (message +:+ nl) (prompted prompt rest w).

(** What the plot-type loop has written after [n] rejected tokens. *)
Definition reprompts (n : nat) : list string :=
  concat (replicate n [invalid_plot_type +:+ nl; plot_type_prompt]).

(** The line the fetcher prints when the download raised [e]. *)
Definition download_error (e : exn) : string :=
  "Error downloading file from S3: " +:+ exn_str e +:+ nl.

(** ** Instances for examples *)

Module Examples.

Definition digit_value (c : ascii) : option Z :=
  let n := Z.of_N (N_of_ascii c) in
  if (48 <=? n) && (n <=? 57) then Some (n - 48) else None.

Fixpoint digits_value (acc : Z) (s : string) : option Z :=
  match s with
  | EmptyString => Some acc
  | String c rest =>
      match digit_value c with
      | Some d => digits_value (10 * acc + d) rest
      | None => None
      end
  end.

(** [int] on plain decimal literals: an optional sign and ASCII digits. *)
Definition decimal_int (s : string) : option Z :=
  match s with
  | EmptyString => None
  | String "-"%char (String _ _ as ds) => Z.opp <$> digits_value 0 ds
  | String "+"%char (String _ _ as ds) => digits_value 0 ds
  | String "-"%char EmptyString | String "+"%char EmptyString => None
  | _ => digits_value 0 s
  end.

Definition ascii_lower_char (c : ascii) : ascii :=
  let n := N_of_ascii c in
  if ((65 <=? n) && (n <=? 90))%N then ascii_of_N (n + 32) else c.

(** [str.lower] on ASCII text. *)
Fixpoint ascii_lower (s : string) : string :=
  match s with
  | EmptyString => EmptyString
  | String c rest => String (ascii_lower_char c) (ascii_lower rest)
  end.

Definition png_signature : list Byte.byte :=
  [Byte.x89; Byte.x50; Byte.x4e; Byte.x47; Byte.x0d; Byte.x0a; Byte.x1a;
   Byte.x0a].

(** An engine on which every call succeeds. *)
Definition quiet_plt : pyplot :=
  Pyplot (fun _ _ => None) (fun _ => png_signature).

(** An engine that cannot write the image file. *)
Definition full_disk_plt : pyplot :=
  Pyplot
    (fun _ c =>
       match c with
       | plt_savefig _ =>
           Some (LibraryError "OSError" "[Errno 28] No space left on device")
       | _ => None
       end)
    (fun _ => png_signature).

(** An engine that refuses values that are not numbers. *)
Definition strict_plt : pyplot :=
  Pyplot
    (fun _ c =>
       if non_numeric_values c
       then Some (ValueError "could not convert string to float")
       else None)
    (fun _ => png_signature).

Definition listing (keys : list string) : list_objects_v2_output :=
  ListObjectsV2Output
    (Some (map (fun k => S3Object (Some k) (Some 0)) keys))
    (Some (Z.of_nat (length keys))) (Some false).

Definition empty_listing : list_objects_v2_output :=
  ListObjectsV2Output None (Some 0) (Some false).

Definition csv_bytes : list Byte.byte :=
  String.list_byte_of_string "date,sales".

(** A bucket that holds [a.csv] and [b.csv]. *)
Definition two_files_client : s3_client :=
  S3Client (fun _ => Ok (listing ["a.csv"; "b.csv"]))
    (fun _ _ _ => Ok csv_bytes).

(** What botocore raises for an object that cannot be fetched. *)
Definition not_found : exn :=
  LibraryError "ClientError"
    ("An error occurred (404) when calling the HeadObject operation: "
       +:+ "Not Found").

(** The same bucket, whose objects cannot be fetched. *)
Definition no_such_key_client : s3_client :=
  S3Client (fun _ => Ok (listing ["a.csv"; "b.csv"]))
    (fun _ _ _ => Raise not_found).

(** An empty bucket. *)
Definition empty_bucket_client : s3_client :=
  S3Client (fun _ => Ok empty_listing) (fun _ _ _ => Ok []).

Definition sales_table : dataframe :=
  [("date", ObjSeries ["mon"; "tue"; "wed"; "thu"; "fri"]);
   ("sales", NumSeries [3 # 1; 5 # 1; 4 # 1; 7 # 1; 6 # 1])]%Q.

Definition start (lines : list string) : world :=
  World ∅ lines [] [] ∅ [].

End Examples.

(** ** Observations on the console loops *)

(** A console line a selection loop rejects when its list has [n] items:
    text that [int] does not parse, a number above [n], or a number that is
    at most [-n]. *)
Definition entry_rejected (int : string -> option Z) (n : Z) (line : string)
    : bool :=
  match int line with
  | None => true
  | Some i => (i <=? - n) || (n <? i)
  end.

(** What a selection loop has written after [k] rejected lines. *)
Definition selection_reprompts (prompt : string) (k : nat) : list string :=
  concat (replicate k [prompt; invalid_selection +:+ nl]).

(** A step that touches nothing but the console: it may read lines and
    write to standard output. *)
Definition console_only {A} (m : M A) : Prop :=
  forall w r w',
    m w = (r, w') ->
    environ w' = environ w /\ stderr w' = stderr w /\ fs w' = fs w
    /\ plt_log w' = plt_log w.

(** The line [print_numbered] writes for the item at position [j] of a
    listing numbered from [i]. *)
Definition numbered_line (i : Z) (j : nat) (item : string) : string :=
  (pretty (i + Z.of_nat j) +:+ ". " +:+ item) +:+ nl.

(** [True] when the path holds a slash. *)
Fixpoint has_slash (p : string) : bool :=
  match p with
  | EmptyString => false
  | String c rest => Ascii.eqb c "/"%char || has_slash rest
  end.

(** * Facts *)

(** ** Base64 *)

Module Base64Facts.
Import Base64.
Local Open Scope N_scope.

Ltac euclid := zify; Z.to_euclidean_division_equations; lia.

Lemma table_ok : forallb table_entry_ok (seq 0 64) = true.
Proof. vm_compute. reflexivity. Qed.

Lemma table_entry i : i < 64 -> table_entry_ok (N.to_nat i) = true.
Proof.
  intros Hi. eapply forallb_forall; [apply table_ok|].
  apply in_seq. lia.
Qed.

Lemma b64_index_char i : i < 64 -> b64_index (b64_char i) = Some i.
Proof.
  intros Hi. pose proof (table_entry i Hi) as H.
  unfold table_entry_ok in H. rewrite N2Nat.id in H.
  destruct (b64_index (b64_char i)) as [j|]; [|discriminate].
  apply andb_prop in H as [H _]. apply N.eqb_eq in H. congruence.
Qed.

Lemma b64_char_not_pad i : i < 64 -> Byte.eqb (b64_char i) pad = false.
Proof.
  intros Hi. pose proof (table_entry i Hi) as H.
  unfold table_entry_ok in H. rewrite N2Nat.id in H.
  destruct (b64_index (b64_char i)) as [j|]; [|discriminate].
  apply andb_prop in H as [_ H]. by apply negb_true_iff in H.
Qed.

Lemma sextets_recompose n :
  n / 262144 * 262144 + n / 4096 mod 64 * 4096 + n / 64 mod 64 * 64
    + n mod 64 = n.
Proof. euclid. Qed.

Lemma group_bytes a b c :
  a < 256 -> b < 256 -> c < 256 ->
  let n := a * 65536 + b * 256 + c in
  n / 65536 = a /\ n / 256 mod 256 = b /\ n mod 256 = c.
Proof. intros ? ? ? n. subst n. euclid. Qed.

Lemma to_N_lt (b : Byte.byte) : Byte.to_N b < 256.
Proof. pose proof (Byte.to_N_bounded b). lia. Qed.

Lemma list_ind3 {A} (P : list A -> Prop) :
  P [] -> (forall a, P [a]) -> (forall a b, P [a; b]) ->
  (forall a b c l, P l -> P (a :: b :: c :: l)) ->
  forall l, P l.
Proof.
  intros H0 H1 H2 H3 l.
  assert (P l /\ (forall a, P (a :: l)) /\ (forall a b, P (a :: b :: l)))
    as [H _]; [|exact H].
  induction l as [|x l (IH0 & IH1 & IH2)]; [by auto|].
  split_and!; [apply IH1 | intros a; apply IH2 | intros a b; apply H3, IH0].
Qed.

Lemma pad_eqb : Byte.eqb pad pad = true.
Proof. reflexivity. Qed.

Lemma sextet_bounds n :
  n < 16777216 ->
  n / 262144 < 64 /\ n / 4096 mod 64 < 64 /\ n / 64 mod 64 < 64
    /\ n mod 64 < 64.
Proof. intros. euclid. Qed.

Lemma one_byte_group a :
  a < 256 ->
  let n := a * 65536 in
  (n / 262144 * 262144 + n / 4096 mod 64 * 4096) / 65536 = a.
Proof. intros ? n. subst n. euclid. Qed.

Lemma two_byte_group a b :
  a < 256 -> b < 256 ->
  let n := a * 65536 + b * 256 in
  let m := n / 262144 * 262144 + n / 4096 mod 64 * 4096 + n / 64 mod 64 * 64 in
  m / 65536 = a /\ m / 256 mod 256 = b.
Proof. intros ? ? n m. subst n m. euclid. Qed.

Lemma b64_char_ascii i : Byte.to_N (b64_char i) < 128.
Proof.
  assert (forallb (fun c => Byte.to_N c <? 128) (pad :: alphabet) = true)
    as Hall by (vm_compute; reflexivity).
  apply N.ltb_lt.
  apply (proj1 (forallb_forall _ _) Hall (b64_char i)).
  unfold b64_char.
  destruct (nth_in_or_default (N.to_nat i) alphabet pad) as [Hin| ->];
    [by right|by left].
Qed.

(** The text [b64encode] produces is ASCII. *)
Lemma b64encode_ascii data :
  Forall (fun c => Byte.to_N c < 128) (b64encode data).
Proof.
  assert (Byte.to_N pad < 128) as Hpad by reflexivity.
  induction data as [|a|a b|a b c rest IH] using list_ind3; cbn [b64encode];
    repeat (apply Forall_cons_2; [apply b64_char_ascii || exact Hpad|]);
    (exact IH || apply Forall_nil_2).
Qed.

Local Opaque N.div N.modulo N.mul N.add Byte.of_N b64_index b64_char Byte.eqb.

Theorem b64decode_b64encode data : b64decode (b64encode data) = Some data.
Proof.
  induction data as [|a|a b|a b c rest IH] using list_ind3.
  - reflexivity.
  - pose proof (to_N_lt a).
    cbn [b64encode].
    set (n := Byte.to_N a * 65536).
    destruct (sextet_bounds n) as (B1 & B2 & B3 & B4); [subst n; lia|].
    cbn [b64decode]. rewrite !b64_index_char by done. cbn.
    rewrite !pad_eqb. subst n. rewrite one_byte_group by done.
    by rewrite Byte.of_to_N.
  - pose proof (to_N_lt a). pose proof (to_N_lt b).
    cbn [b64encode].
    set (n := Byte.to_N a * 65536 + Byte.to_N b * 256).
    destruct (sextet_bounds n) as (B1 & B2 & B3 & B4); [subst n; lia|].
    cbn [b64decode]. rewrite !b64_index_char by done. cbn.
    rewrite (b64_char_not_pad _ B3), pad_eqb.
    destruct (two_byte_group (Byte.to_N a) (Byte.to_N b)) as [E1 E2]; [done..|].
    fold n in E1, E2. cbn. rewrite E1, E2, !Byte.of_to_N. reflexivity.
  - pose proof (to_N_lt a). pose proof (to_N_lt b). pose proof (to_N_lt c).
    cbn [b64encode].
    set (n := Byte.to_N a * 65536 + Byte.to_N b * 256 + Byte.to_N c).
    destruct (sextet_bounds n) as (B1 & B2 & B3 & B4); [subst n; lia|].
    cbn [b64decode]. rewrite !b64_index_char by done. cbn.
    rewrite (b64_char_not_pad _ B3), (b64_char_not_pad _ B4). cbn.
    rewrite sextets_recompose.
    destruct (group_bytes (Byte.to_N a) (Byte.to_N b) (Byte.to_N c))
      as (E1 & E2 & E3); [done..|].
    fold n in E1, E2, E3. rewrite E1, E2, E3, !Byte.of_to_N. cbn.
    rewrite IH. reflexivity.
Qed.

Lemma b64encode_nonempty data : data <> [] -> b64encode data <> [].
Proof. destruct data as [|a [|b [|c rest]]]; done. Qed.

Lemma b64encode_length data :
  length (b64encode data) = (4 * ((length data + 2) / 3))%nat.
Proof.
  induction data as [|a|a b|a b c rest IH] using list_ind3; try reflexivity.
  cbn [b64encode length]. rewrite IH.
  replace (S (S (S (length rest))) + 2)%nat
    with (length rest + 2 + 1 * 3)%nat by lia.
  rewrite Nat.div_add by lia. lia.
Qed.
End Base64Facts.

(** ** The monad *)

Lemma bind_inv {A B} (m : M A) (k : A -> M B) w r w' :
  bind m k w = (r, w') ->
  (exists a w1, m w = (Ok a, w1) /\ k a w1 = (r, w'))
  \/ (exists e, m w = (Raise e, w') /\ r = Raise e).
Proof.
  unfold bind. destruct (m w) as [[a|e] w1]; intros H.
  - left. eauto.
  - right. injection H as <- <-. eauto.
Qed.

Lemma bind_Ok {A B} (m : M A) (k : A -> M B) w a w1 :
  m w = (Ok a, w1) -> bind m k w = k a w1.
Proof. unfold bind. by intros ->. Qed.

Lemma bind_Raise {A B} (m : M A) (k : A -> M B) w e w1 :
  m w = (Raise e, w1) -> bind m k w = (Raise e, w1).
Proof. unfold bind. by intros ->. Qed.

Lemma lift_inv {A} (x : result A) w r w' :
  lift x w = (r, w') -> r = x /\ w' = w.
Proof. unfold lift. by intros [= <- <-]. Qed.

(** ** Logged calls *)

Lemma log_call_calls c w : log_call c w = log_calls [c] w.
Proof. reflexivity. Qed.

Lemma log_calls_nil w : log_calls [] w = w.
Proof. destruct w. unfold log_calls. cbn. by rewrite app_nil_r. Qed.

Lemma log_calls_app cs ds w :
  log_calls ds (log_calls cs w) = log_calls (cs ++ ds) w.
Proof. unfold log_calls. cbn. by rewrite app_assoc. Qed.

Lemma calls_made_log_calls cs w : calls_made w (log_calls cs w) = cs.
Proof. unfold calls_made. cbn. apply drop_app_length. Qed.

Section Engine.
Variable plt : pyplot.

Lemma call_inv c w r w' :
  call plt c w = (r, w') -> is_savefig c = false ->
  w' = log_call c w /\
  r = match plt_raises plt (plt_log w) c with
      | Some e => Raise e
      | None => Ok tt
      end.
Proof.
  unfold call. intros H Hc.
  destruct (plt_raises plt (plt_log w) c); [by injection H as <- <-|].
  destruct c; try discriminate; by injection H as <- <-.
Qed.

Lemma savefig_inv fname w r w' :
  call plt (plt_savefig fname) w = (r, w') ->
  match plt_raises plt (plt_log w) (plt_savefig fname) with
  | Some e => r = Raise e /\ w' = log_call (plt_savefig fname) w
  | None =>
      r = Ok tt /\
      w' = write_file fname (plt_render plt (plt_log w))
             (log_call (plt_savefig fname) w)
  end.
Proof.
  unfold call.
  destruct (plt_raises plt (plt_log w) _); by intros [= <- <-].
Qed.

Lemma df_getitem_first df x :
  getitem (columns df) 0 = Ok x -> exists xs, df_getitem df x = Ok xs.
Proof.
  destruct df as [|[c s] rest]; [discriminate|].
  unfold getitem. cbn. intros [= <-]. exists s. by rewrite String.eqb_refl.
Qed.

Lemma df_getitem_Raise df name e :
  df_getitem df name = Raise e -> e = KeyError name.
Proof.
  induction df as [|[c s] rest IH]; cbn; [congruence|].
  destruct (String.eqb c name); [discriminate|done].
Qed.

Lemma not_plot_type tag :
  String.eqb tag "scatter" = false -> String.eqb tag "line" = false ->
  String.eqb tag "hist" = false -> String.eqb tag "bar" = false ->
  String.eqb tag "pie" = false -> tag ∉ plot_types.
Proof.
  rewrite !String.eqb_neq. unfold plot_types. intros.
  rewrite !not_elem_of_cons. split_and!; try done. apply not_elem_of_nil.
Qed.

(** A run of the dispatch: a missing column raises before any call; a
    recognized type makes its one call; any other type makes none. *)
Lemma draw_run df x y tag w r w' :
  draw plt df x y tag w = (r, w') ->
  (exists key, r = Raise (KeyError key) /\ w' = w)
  \/ (exists c, drawn_by df x y tag [c] /\ is_draw_call c = true /\
        w' = log_call c w /\
        r = match plt_raises plt (plt_log w) c with
            | Some e => Raise e
            | None => Ok tt
            end)
  \/ (drawn_by df x y tag [] /\ r = Ok tt /\ w' = w).
Proof.
  unfold draw. intros H.
  destruct (String.eqb tag "scatter") eqn:E1;
    [|destruct (String.eqb tag "line") eqn:E2;
      [|destruct (String.eqb tag "hist") eqn:E3;
        [|destruct (String.eqb tag "bar") eqn:E4;
          [|destruct (String.eqb tag "pie") eqn:E5]]]].
  all: try (apply String.eqb_eq in E1 as ->).
  all: try (apply String.eqb_eq in E2 as ->).
  all: try (apply String.eqb_eq in E3 as ->).
  all: try (apply String.eqb_eq in E4 as ->).
  all: try (apply String.eqb_eq in E5 as ->).
  6: { right; right. injection H as <- <-. split_and!; try done.
       constructor. by apply not_plot_type. }
  all: repeat match type of H with
    | bind (lift (df_getitem ?d ?n)) _ _ = _ =>
        let E := fresh "E" in
        unfold bind at 1 in H; unfold lift at 1 in H;
        destruct (df_getitem d n) eqn:E
    end.
  all: try (left; injection H as <- <-;
            match goal with
            | E : df_getitem _ ?n = Raise ?e |- _ =>
                apply df_getitem_Raise in E as ->; by eexists
            end).
  all: try (right; left; apply call_inv in H as [-> ->]; [|done];
            eexists; split_and!; [by econstructor|done..]).
Qed.

Lemma draw_call_before_save c : is_draw_call c = true -> before_save c.
Proof. by destruct c. Qed.

Lemma draw_Ok df x y tag w w' :
  draw plt df x y tag w = (Ok tt, w') ->
  exists drawn, drawn_by df x y tag drawn /\ w' = log_calls drawn w /\
    Forall before_save drawn.
Proof.
  intros H.
  apply draw_run in H as [(k & ? & _)|[(c & D & Hc & -> & _)|(D & _ & ->)]].
  - discriminate.
  - exists [c]. split_and!; [done..|].
    by apply Forall_singleton, draw_call_before_save.
  - exists []. by rewrite log_calls_nil.
Qed.

Lemma draw_Raise df x y tag w e w' :
  draw plt df x y tag w = (Raise e, w') ->
  exists before, w' = log_calls before w /\ Forall before_save before.
Proof.
  intros H.
  apply draw_run in H as [(k & _ & ->)|[(c & D & Hc & -> & _)|(D & ? & _)]].
  - exists []. by rewrite log_calls_nil.
  - exists [c]. split; [done|].
    by apply Forall_singleton, draw_call_before_save.
  - discriminate.
Qed.

Ltac normalize_log :=
  rewrite ?log_call_calls, ?log_calls_app.

Ltac stopped_early :=
  left; eexists _, _; split; [reflexivity|]; split;
  [normalize_log; reflexivity
  |rewrite ?Forall_app, ?Forall_cons; split_and?;
   (done || by apply Forall_nil)].

(** One pyplot call of the chain that is not [savefig]: either it raises
    and the run stops there, or the run goes on. *)
Ltac call_step H :=
  let u := fresh "u" in let w1 := fresh "w" in
  let Hc := fresh "Hc" in let e := fresh "e" in let Hr := fresh "Hr" in
  apply bind_inv in H as [(u & w1 & Hc & H)|(e & Hc & ->)];
  apply call_inv in Hc as [-> Hr]; [|done| |done];
  [|stopped_early].

Lemma visualize_data_run df out col tag w r w' :
  visualize_data plt df out col tag w = (r, w') ->
  let path := path_join out "plot.png" in
  (exists e before, r = Raise e /\ w' = log_calls before w /\
     Forall before_save before)
  \/ (exists x drawn,
        getitem (columns df) 0 = Ok x /\ drawn_by df x col tag drawn /\
        let chart := plt_figure (10, 6) :: drawn ++ decoration x col in
        let image := plt_render plt (plt_log w ++ chart) in
        match plt_raises plt (plt_log w ++ chart) (plt_savefig path) with
        | Some e =>
            r = Raise e /\ w' = log_calls (chart ++ [plt_savefig path]) w
        | None =>
            let saved :=
              write_file path image
                (log_calls (chart ++ [plt_savefig path; plt_close]) w) in
            match plt_raises plt (plt_log w ++ chart ++ [plt_savefig path])
                    plt_close with
            | Some e => r = Raise e /\ w' = saved
            | None =>
                r = Ok (decode_utf8 (Base64.b64encode image)) /\
                w' = write_stdout
                       ("Plot saved successfully to: " +:+ path +:+ nl) saved
            end
        end).
Proof.
  intros H path. unfold visualize_data in H.
  call_step H.
  apply bind_inv in H as [(x & w1 & Hx & H)|(e & Hx & ->)];
    apply lift_inv in Hx as [Hx ->]; [|stopped_early].
  apply bind_inv in H as [([] & w1 & Hd & H)|(e & Hd & ->)].
  2: { apply draw_Raise in Hd as (before & -> & Hb). stopped_early. }
  apply draw_Ok in Hd as (drawn & Hdrawn & -> & Hb).
  do 6 call_step H.
  right. exists x, drawn. split; [done|]. split; [done|]. cbv zeta.
  set (chart := plt_figure (10, 6) :: drawn ++ decoration x col).
  match type of H with _ ?w0 = _ =>
    replace w0 with (log_calls chart w) in H
      by (normalize_log; f_equal; subst chart; cbn;
          by rewrite <- !app_assoc)
  end.
  apply bind_inv in H as [(u' & w1 & Hs & H)|(e & Hs & ->)];
    apply savefig_inv in Hs; cbn [plt_log log_calls] in Hs;
    fold path in Hs;
    destruct (plt_raises plt (plt_log w ++ chart) (plt_savefig path));
    destruct Hs as [Hs ->]; try discriminate.
  2: { injection Hs as ->. split; [done|]. by normalize_log. }
  assert (forall c,
    log_call c (write_file path (plt_render plt (plt_log w ++ chart))
                  (log_call (plt_savefig path) (log_calls chart w)))
    = write_file path (plt_render plt (plt_log w ++ chart))
        (log_calls (chart ++ [plt_savefig path; c]) w)) as Hsaved.
  { intros c. unfold write_file, log_call, log_calls.
    cbn [plt_log environ stdin stdout stderr fs]. f_equal.
    by rewrite <- !app_assoc. }
  apply bind_inv in H as [(u'' & w1 & Hc & H)|(e & Hc & ->)];
    apply call_inv in Hc as [-> Hc]; try done;
    cbn [plt_log write_file log_call log_calls] in Hc;
    rewrite <- app_assoc in Hc; rewrite Hsaved in *;
    destruct (plt_raises plt (plt_log w ++ chart ++ [plt_savefig path])
                plt_close); try discriminate.
  2: { by injection Hc as ->. }
  unfold bind, print, read_file, ret in H. cbn in H.
  rewrite lookup_insert_eq in H. by injection H as <- <-.
Qed.

(** The successful runs. *)
Lemma visualize_data_Ok df out col tag w s w' :
  visualize_data plt df out col tag w = (Ok s, w') ->
  let path := path_join out "plot.png" in
  exists x drawn,
    getitem (columns df) 0 = Ok x /\ drawn_by df x col tag drawn /\
    let chart := plt_figure (10, 6) :: drawn ++ decoration x col in
    let image := plt_render plt (plt_log w ++ chart) in
    s = decode_utf8 (Base64.b64encode image) /\
    w' = write_stdout ("Plot saved successfully to: " +:+ path +:+ nl)
           (write_file path image
              (log_calls (chart ++ [plt_savefig path; plt_close]) w)).
Proof.
  intros H path.
  apply visualize_data_run in H as [(e & ? & ? & _)|(x & drawn & Hx & Hd & H)];
    [discriminate|].
  exists x, drawn. split; [done|]. split; [done|]. cbv zeta in *.
  fold path in H.
  destruct (plt_raises plt _ (plt_savefig path)); [by destruct H|].
  destruct (plt_raises plt _ plt_close); [by destruct H|].
  destruct H as [[= ->] ->]. done.
Qed.

Lemma axis_labels_chart log figsize drawn x y :
  Forall (fun c => is_draw_call c = true) drawn ->
  axis_labels (log ++ plt_figure figsize :: drawn ++ decoration x y)
  = (Some x, Some y).
Proof.
  intros Hd. unfold axis_labels. rewrite fold_left_app. cbn [fold_left].
  rewrite fold_left_app.
  assert (forall st, fold_left axis_labels_step drawn st = st) as ->; [|done].
  induction Hd as [|c l Hc _ IH]; intros st; [done|].
  cbn. rewrite <- (IH st) at 2. f_equal. by destruct c.
Qed.

Lemma drawn_by_draw_calls df x y tag drawn :
  drawn_by df x y tag drawn -> Forall (fun c => is_draw_call c = true) drawn.
Proof. destruct 1; repeat constructor. Qed.

Lemma drawn_by_data df x y tag drawn :
  drawn_by df x y tag drawn ->
  Forall (fun c => forall s, s ∈ data_args c ->
            df_getitem df x = Ok s \/ df_getitem df y = Ok s) drawn.
Proof.
  destruct 1; [..|by apply Forall_nil_2]; apply Forall_singleton; cbn;
    intros s; rewrite ?elem_of_cons, elem_of_nil; intuition congruence.
Qed.

Lemma getitem_zero {A} (l : list A) x : getitem l 0 = Ok x <-> head l = Some x.
Proof.
  destruct l as [|a l]; [done|]. unfold getitem. cbn.
  split; by intros [= ->].
Qed.

Lemma calls_made_app w w' (cs : list plt_call) :
  plt_log w' = plt_log w ++ cs -> calls_made w w' = cs.
Proof. unfold calls_made. intros ->. apply drop_app_length. Qed.

(** C4. On every successful render, whatever the table, the selected column
    and the plot type, the chart that is saved has the name of the table's
    first column as its x-axis label and the selected column's name as its
    y-axis label, and every piece of data handed to the engine is the first
    column or the selected column: the assignment does not depend on the
    plot type. *)
Theorem axis_labels_fixed df out col tag w s w' :
  visualize_data plt df out col tag w = (Ok s, w') ->
  exists x chart,
    head (columns df) = Some x /\
    fs w' !! path_join out "plot.png" = Some (plt_render plt chart) /\
    axis_labels chart = (Some x, Some col) /\
    Forall (fun c => forall d, d ∈ data_args c ->
              df_getitem df x = Ok d \/ df_getitem df col = Ok d)
      (calls_made w w').
Proof.
  intros H. apply visualize_data_Ok in H as (x & drawn & Hx & Hd & -> & ->).
  exists x, (plt_log w ++ plt_figure (10, 6) :: drawn ++ decoration x col).
  split; [by apply getitem_zero|]. split; [apply lookup_insert_eq|].
  split; [eapply axis_labels_chart, drawn_by_draw_calls, Hd|].
  erewrite calls_made_app by reflexivity.
  unfold decoration.
  rewrite <- app_comm_cons, ?Forall_cons, ?Forall_app, ?Forall_cons, Forall_nil.
  split_and!; try done; try (by intros d []%elem_of_nil).
  by eapply drawn_by_data.
Qed.

(** *** Paths *)

Lemma basename_aux_slash acc p q :
  basename_aux acc (p +:+ String "/" q) = basename_aux "" q.
Proof.
  revert acc. induction p as [|c p IH]; intros acc.
  - cbn. done.
  - change (String c p +:+ String "/" q) with (String c (p +:+ String "/" q)).
    cbn [basename_aux]. destruct (Ascii.eqb c "/"); apply IH.
Qed.

Lemma ends_with_slash_split a :
  ends_with_slash a = true -> exists p, a = p +:+ "/".
Proof.
  induction a as [|c a IH]; [done|]. cbn. destruct a as [|d a].
  - intros ->%Ascii.eqb_eq. by exists "".
  - intros [p ->]%IH. by exists (String c p).
Qed.

Lemma append_assoc (a b c : string) : (a +:+ b) +:+ c = a +:+ b +:+ c.
Proof.
  induction a as [|x a IH]; [done|].
  change (String x ((a +:+ b) +:+ c) = String x (a +:+ b +:+ c)).
  by rewrite IH.
Qed.

Lemma basename_plot_png out : basename (path_join out "plot.png") = "plot.png".
Proof.
  unfold basename, path_join. cbn. destruct out as [|c out]; [done|].
  destruct (ends_with_slash (String c out)) eqn:E.
  - apply ends_with_slash_split in E as [p ->].
    rewrite append_assoc. apply (basename_aux_slash "" p "plot.png").
  - apply (basename_aux_slash "" (String c out) "plot.png").
Qed.

Lemma decode_utf8_nonempty data : data <> [] -> decode_utf8 data <> "".
Proof. by destruct data. Qed.

(** C5. On every successful render the image is written to [plot.png] in
    the output directory, replacing what was stored at that path and touching
    no other file, so that a later render into the same directory leaves the
    set of files unchanged; the returned string is the base64 text of the
    bytes of that file, decoding it gives the bytes back, and it is not
    empty since the image file is not. *)
Theorem rendered_image_saved_and_encoded df out col tag w s w' :
  (forall log, plt_render plt log <> []) ->
  visualize_data plt df out col tag w = (Ok s, w') ->
  let path := path_join out "plot.png" in
  exists image,
    basename path = "plot.png" /\
    fs w' = <[path := image]> (fs w) /\
    s = decode_utf8 (Base64.b64encode image) /\
    Base64.b64decode (encode_utf8 s) = Some image /\
    s <> "" /\
    (forall df2 col2 tag2 s2 w2,
       visualize_data plt df2 out col2 tag2 w' = (Ok s2, w2) ->
       dom (fs w2) = dom (fs w')).
Proof.
  intros Hpng H path.
  apply visualize_data_Ok in H as (x & drawn & Hx & Hd & -> & ->).
  fold path. eexists. split; [apply basename_plot_png|].
  split; [reflexivity|]. split; [reflexivity|]. split_and!.
  - unfold encode_utf8, decode_utf8.
    rewrite String.list_byte_of_string_of_list_byte.
    apply Base64Facts.b64decode_b64encode.
  - apply decode_utf8_nonempty, Base64Facts.b64encode_nonempty, Hpng.
  - intros df2 col2 tag2 s2 w2 H2.
    apply visualize_data_Ok in H2 as (x2 & drawn2 & _ & _ & _ & ->).
    fold path. cbn [fs write_stdout write_file log_calls].
    by rewrite insert_insert_eq, !dom_insert_L.
Qed.

Lemma hist_is_plot_type : "hist" ∈ plot_types.
Proof. unfold plot_types. set_solver. Qed.

(** C6. For the plot type [hist] the dispatch makes one call, [plt.hist], on
    the values of the selected column only, with [bins=10] and [rwidth=0.8];
    a relative bar width below 1 leaves a gap between adjacent bars. *)
Theorem hist_draws_target_column_only df out col w :
  (forall x r w1,
     draw plt df x col "hist" w = (r, w1) ->
     match df_getitem df col with
     | Ok ys => w1 = log_call (plt_hist ys 10 col (8 # 10)) w
     | Raise _ => w1 = w /\ r = Raise (KeyError col)
     end)
  /\ (forall s w',
        visualize_data plt df out col "hist" w = (Ok s, w') ->
        exists ys,
          df_getitem df col = Ok ys /\
          List.filter is_draw_call (calls_made w w')
            = [plt_hist ys 10 col (8 # 10)] /\
          flat_map data_args (calls_made w w') = [ys])
  /\ (0 < 8 # 10 < 1)%Q.
Proof.
  split_and!.
  - intros x r w1. unfold draw. cbn. unfold bind, lift.
    destruct (df_getitem df col) as [ys|e] eqn:E.
    + intros H. by apply call_inv in H as [-> _].
    + intros [= <- <-]. by apply df_getitem_Raise in E as ->.
  - intros s w' H.
    apply visualize_data_Ok in H as (x & drawn & Hx & Hd & -> & ->).
    erewrite calls_made_app by reflexivity.
    inversion Hd as [| |ys Hy| | |? Hn]; subst.
    + exists ys. by split.
    + destruct Hn. apply hist_is_plot_type.
  - reflexivity.
  - reflexivity.
Qed.

Lemma savefig_split chart0 p0 rest0 chart p rest :
  Forall before_save chart0 ->
  Forall (fun c => is_savefig c = false) rest0 ->
  chart0 ++ plt_savefig p0 :: rest0 = chart ++ plt_savefig p :: rest ->
  chart = chart0 /\ p = p0 /\ rest = rest0.
Proof.
  intros H0 Hrest. revert chart.
  induction H0 as [|c0 chart0 [Hc0 _] _ IH]; intros [|c chart]; cbn.
  - by intros [= -> ->].
  - intros [= <- ->]. apply Forall_app in Hrest as [_ Hrest].
    by apply Forall_cons in Hrest as [? _].
  - by intros [= -> _].
  - intros [= -> H]. by destruct (IH _ H) as (-> & -> & ->).
Qed.

Lemma chart_before_save df x y tag drawn :
  drawn_by df x y tag drawn ->
  Forall before_save (plt_figure (10, 6) :: drawn ++ decoration x y).
Proof.
  destruct 1; repeat (apply Forall_cons_2 || apply Forall_nil_2); done.
Qed.

Lemma open_figures_chart df x y tag drawn tail :
  drawn_by df x y tag drawn ->
  open_figures ((plt_figure (10, 6) :: drawn ++ decoration x y) ++ tail) 0
  = open_figures tail 1.
Proof. by destruct 1. Qed.

(** C3, as amended. Once [plt.savefig] has been called: when it returns
    normally, [plt.close] is the next and last pyplot call and no figure of
    the run stays open; when it raises, the exception leaves
    [visualize_data], [plt.close] is not called and the figure stays open. *)
Theorem close_follows_successful_savefig df out col tag w r w' chart p rest :
  visualize_data plt df out col tag w = (r, w') ->
  calls_made w w' = chart ++ plt_savefig p :: rest ->
  match plt_raises plt (plt_log w ++ chart) (plt_savefig p) with
  | None =>
      rest = [plt_close] /\ open_figures (calls_made w w') 0 = 0%nat
  | Some e =>
      rest = [] /\ r = Raise e /\ open_figures (calls_made w w') 0 = 1%nat
  end.
Proof.
  intros H Hcalls.
  apply visualize_data_run in H
    as [(e & before & -> & -> & Hb)|(x & drawn & Hx & Hd & H)].
  { rewrite calls_made_log_calls in Hcalls. subst before.
    apply Forall_app in Hb as [_ Hb]. by apply Forall_cons in Hb as [[? _] _]. }
  cbv zeta in H.
  set (chart0 := plt_figure (10, 6) :: drawn ++ decoration x col) in *.
  set (path := path_join out "plot.png") in *.
  pose proof (chart_before_save _ _ _ _ _ Hd) as Hb. fold chart0 in Hb.
  assert (calls_made w w' = chart0 ++ [plt_savefig path] ->
          chart = chart0 /\ p = path /\ rest = []) as Hfail.
  { intros E. rewrite E in Hcalls.
    by apply savefig_split in Hcalls; [|done|apply Forall_nil_2]. }
  assert (calls_made w w' = chart0 ++ [plt_savefig path; plt_close] ->
          chart = chart0 /\ p = path /\ rest = [plt_close]) as Hsaved.
  { intros E. rewrite E in Hcalls.
    by apply savefig_split in Hcalls; [|done|apply Forall_singleton]. }
  destruct (plt_raises plt (plt_log w ++ chart0) (plt_savefig path))
    as [e|] eqn:Es.
  - destruct H as [-> ->]. rewrite calls_made_log_calls in *.
    destruct Hfail as (-> & -> & ->); [done|]. rewrite Es.
    split_and!; [done..|]. subst chart0. by erewrite open_figures_chart.
  - assert (calls_made w w' = chart0 ++ [plt_savefig path; plt_close]) as E.
    { destruct (plt_raises plt _ plt_close); destruct H as [_ ->];
        by apply calls_made_app. }
    destruct (Hsaved E) as (-> & -> & ->). rewrite Es, E.
    split; [done|]. subst chart0. by erewrite open_figures_chart.
Qed.

(** *** Forward runs *)

Lemma call_Ok c w :
  plt_raises plt (plt_log w) c = None -> is_savefig c = false ->
  call plt c w = (Ok tt, log_call c w).
Proof. unfold call. intros -> Hc. by destruct c. Qed.

Lemma call_Raise c w e :
  plt_raises plt (plt_log w) c = Some e ->
  call plt c w = (Raise e, log_call c w).
Proof. unfold call. by intros ->. Qed.

Lemma savefig_Ok fname w :
  plt_raises plt (plt_log w) (plt_savefig fname) = None ->
  call plt (plt_savefig fname) w
  = (Ok tt, write_file fname (plt_render plt (plt_log w))
              (log_call (plt_savefig fname) w)).
Proof. unfold call. by intros ->. Qed.

Lemma draw_unrecognized df x y tag w :
  tag ∉ plot_types -> draw plt df x y tag w = (Ok tt, w).
Proof.
  unfold plot_types. rewrite !not_elem_of_cons. intros (?&?&?&?&?&_).
  unfold draw. by rewrite !(proj2 (String.eqb_neq _ _)).
Qed.

Lemma write_file_log_calls path image cs w :
  log_calls cs (write_file path image w)
  = write_file path image (log_calls cs w).
Proof. reflexivity. Qed.

(** C10. For a plot type that is none of the five, on a table that has a
    first column and with an engine whose calls other than the draw calls
    succeed, the render does not fail: no draw call is made, the labels and
    the title are set, the blank chart is saved to [plot.png] and a
    non-empty base64 string is returned. *)
Theorem unrecognized_tag_renders_blank_chart df out col tag w x :
  tag ∉ plot_types ->
  head (columns df) = Some x ->
  (forall log c, is_draw_call c = false -> plt_raises plt log c = None) ->
  (forall log, plt_render plt log <> []) ->
  let path := path_join out "plot.png" in
  let chart := plt_figure (10, 6) :: decoration x col in
  let image := plt_render plt (plt_log w ++ chart) in
  exists s w',
    visualize_data plt df out col tag w = (Ok s, w') /\
    calls_made w w' = chart ++ [plt_savefig path; plt_close] /\
    List.filter is_draw_call (calls_made w w') = [] /\
    fs w' !! path = Some image /\
    s = decode_utf8 (Base64.b64encode image) /\
    s <> "".
Proof.
  intros Htag Hx Hquiet Hpng path chart image.
  apply getitem_zero in Hx.
  assert (visualize_data plt df out col tag w =
    (Ok (decode_utf8 (Base64.b64encode image)),
     write_stdout ("Plot saved successfully to: " +:+ path +:+ nl)
       (write_file path image
          (log_calls (chart ++ [plt_savefig path; plt_close]) w)))) as E.
  { unfold visualize_data.
    erewrite bind_Ok by (apply call_Ok; [by apply Hquiet|done]).
    unfold bind at 1, lift at 1. rewrite Hx.
    erewrite bind_Ok by (by apply draw_unrecognized).
    do 6 erewrite bind_Ok by (apply call_Ok; [by apply Hquiet|done]).
    erewrite bind_Ok by (apply savefig_Ok; by apply Hquiet).
    erewrite bind_Ok by (apply call_Ok; [by apply Hquiet|done]).
    unfold bind, print, read_file, ret. 
    cbn [fs write_stdout write_file log_call].
    fold path. rewrite lookup_insert_eq.
    rewrite !log_call_calls, write_file_log_calls, !log_calls_app.
    reflexivity. }
  eexists _, _. split; [exact E|].
  erewrite calls_made_app by reflexivity.
  split_and!; [done..| |done|].
  - apply lookup_insert_eq.
  - apply decode_utf8_nonempty, Base64Facts.b64encode_nonempty, Hpng.
Qed.
Lemma df_getitem_has_first df name s :
  df_getitem df name = Ok s -> exists x, getitem (columns df) 0 = Ok x.
Proof. destruct df as [|[c0 s0] rest]; [done|]. by exists c0. Qed.

End Engine.

Section Console.
Variable int : string -> option Z.
Variable lower : string -> string.

(** *** The selection loops *)

Lemma selection_round_eof prompt items w :
  stdin w = [] ->
  selection_round int prompt items w = (Raise EOFError, write_stdout prompt w).
Proof.
  intros E. unfold selection_round, try_except, bind, input. by rewrite E.
Qed.

Lemma selection_round_line prompt items w line rest :
  stdin w = line :: rest ->
  selection_round int prompt items w =
    match int line with
    | None => (Ok None, rejected prompt invalid_selection rest w)
    | Some i =>
        match getitem items (i - 1) with
        | Ok item => (Ok (Some item), prompted prompt rest w)
        | Raise _ => (Ok None, rejected prompt invalid_selection rest w)
        end
    end.
Proof.
  intros E.
  unfold selection_round, try_except, bind, input, lift, int_of_input.
  rewrite E. destruct (int line) as [i|]; [|done].
  unfold getitem.
  destruct (_ || _); [done|]. by destruct (items !! _).
Qed.

(** The [while True] loop, one round unrolled. *)
Lemma selection_loop_unfold prompt items w :
  selection_loop int prompt items w =
    match selection_round int prompt items w with
    | (Ok (Some selected), w') => (Ok selected, w')
    | (Ok None, w') => selection_loop int prompt items w'
    | (Raise e, w') => (Raise e, w')
    end.
Proof.
  unfold selection_loop. destruct (stdin w) as [|line rest] eqn:E.
  - cbn. by rewrite (selection_round_eof _ _ _ E).
  - cbn. rewrite (selection_round_line _ _ _ _ _ E).
    destruct (int line) as [i|]; [destruct (getitem items (i - 1))|]; done.
Qed.

Ltac compare_Z :=
  repeat match goal with
    | |- context [(?a <? ?b)%Z] => destruct (Z.ltb_spec a b); try lia
    | |- context [(?a <=? ?b)%Z] => destruct (Z.leb_spec a b); try lia
    end.

Lemma getitem_nonneg {A} (l : list A) i :
  0 <= i < Z.of_nat (length l) ->
  exists x, l !! Z.to_nat i = Some x /\ getitem l i = Ok x.
Proof.
  intros Hi.
  destruct (lookup_lt_is_Some_2 l (Z.to_nat i)) as [x Hx]; [lia|].
  exists x. split; [done|]. unfold getitem. compare_Z. cbn. by rewrite Hx.
Qed.

Lemma getitem_negative {A} (l : list A) i :
  - Z.of_nat (length l) <= i < 0 ->
  exists x, l !! Z.to_nat (i + Z.of_nat (length l)) = Some x /\
            getitem l i = Ok x.
Proof.
  intros Hi.
  destruct (lookup_lt_is_Some_2 l (Z.to_nat (i + Z.of_nat (length l))))
    as [x Hx]; [lia|].
  exists x. split; [done|]. unfold getitem. compare_Z. cbn. by rewrite Hx.
Qed.

Lemma getitem_out_of_range {A} (l : list A) i :
  i < - Z.of_nat (length l) \/ Z.of_nat (length l) <= i ->
  getitem l i = Raise (IndexError "list index out of range").
Proof. intros Hi. unfold getitem. by compare_Z. Qed.

Lemma getitem_Ok_elem_of {A} (l : list A) i x : getitem l i = Ok x -> x ∈ l.
Proof.
  unfold getitem. destruct (_ || _); [done|].
  destruct (l !! _) eqn:E; [|done]. intros [= <-].
  by eapply list_elem_of_lookup_2.
Qed.

(** A number from 1 to [len(items)] selects that item. *)
Lemma selection_in_range prompt items w line rest i :
  stdin w = line :: rest -> int line = Some i ->
  1 <= i <= Z.of_nat (length items) ->
  exists item,
    items !! Z.to_nat (i - 1) = Some item /\
    selection_loop int prompt items w = (Ok item, prompted prompt rest w).
Proof.
  intros E Hi Hr.
  destruct (getitem_nonneg items (i - 1)) as (x & Hx & Hg); [lia|].
  exists x. split; [done|].
  by rewrite selection_loop_unfold, (selection_round_line _ _ _ _ _ E), Hi, Hg.
Qed.

(** A number above [len(items)] is rejected and the loop prompts again. *)
Lemma selection_above_rejected prompt items w line rest i :
  stdin w = line :: rest -> int line = Some i ->
  Z.of_nat (length items) < i ->
  selection_loop int prompt items w =
  selection_loop int prompt items (rejected prompt invalid_selection rest w).
Proof.
  intros E Hi Hr.
  rewrite selection_loop_unfold, (selection_round_line _ _ _ _ _ E), Hi.
  by rewrite getitem_out_of_range by lia.
Qed.

(** Text that [int] does not parse is rejected in the same way. *)
Lemma selection_unparsable_rejected prompt items w line rest :
  stdin w = line :: rest -> int line = None ->
  selection_loop int prompt items w =
  selection_loop int prompt items (rejected prompt invalid_selection rest w).
Proof.
  intros E Hi.
  by rewrite selection_loop_unfold, (selection_round_line _ _ _ _ _ E), Hi.
Qed.

(** Zero and the negative numbers down to [1 - len(items)] are not
    rejected: the index [i - 1] is negative and counts from the end. *)
Lemma selection_nonpositive_wraps prompt items w line rest i :
  stdin w = line :: rest -> int line = Some i ->
  - Z.of_nat (length items) < i <= 0 ->
  exists item,
    items !! Z.to_nat (i - 1 + Z.of_nat (length items)) = Some item /\
    selection_loop int prompt items w = (Ok item, prompted prompt rest w).
Proof.
  intros E Hi Hr.
  destruct (getitem_negative items (i - 1)) as (x & Hx & Hg); [lia|].
  exists x. split; [done|].
  by rewrite selection_loop_unfold, (selection_round_line _ _ _ _ _ E), Hi, Hg.
Qed.

Lemma selection_below_rejected prompt items w line rest i :
  stdin w = line :: rest -> int line = Some i ->
  i <= - Z.of_nat (length items) ->
  selection_loop int prompt items w =
  selection_loop int prompt items (rejected prompt invalid_selection rest w).
Proof.
  intros E Hi Hr.
  rewrite selection_loop_unfold, (selection_round_line _ _ _ _ _ E), Hi.
  by rewrite getitem_out_of_range by lia.
Qed.

Lemma selection_rounds_Ok prompt items lines w x w' :
  selection_rounds int prompt items lines w = (Ok x, w') -> x ∈ items.
Proof.
  revert w. induction lines as [|l lines IH]; intros w; cbn;
    unfold selection_round at 1, try_except, bind, input, lift, int_of_input;
    destruct (stdin w) as [|line rest]; try done.
  all: destruct (int line) as [i|]; cbn; try done; try apply IH.
  all: destruct (getitem items (i - 1)) as [item|e] eqn:Eg; cbn.
  all: try (intros [= <- <-]; by eapply getitem_Ok_elem_of).
  all: destruct e; cbn; try done; apply IH.
Qed.

(** *** The plot-type loop *)

Lemma plot_type_rounds_Ok token lines w tag w' :
  plot_type_rounds lower token lines w = (Ok tag, w') -> tag ∈ plot_types.
Proof.
  revert token w. induction lines as [|l lines IH]; intros token w; cbn;
    case_bool_decide; try (by intros [= <- <-]);
    unfold bind, print, input; cbn; destruct (stdin w); try done.
  apply IH.
Qed.

Lemma plot_type_rounds_found consumed token line rest w :
  stdin w = consumed ++ line :: rest ->
  token ∉ plot_types ->
  Forall (fun l => lower l ∉ plot_types) consumed ->
  lower line ∈ plot_types ->
  plot_type_rounds lower token (stdin w) w =
    (Ok (lower line),
     World (environ w) rest
       (stdout w ++ reprompts (S (length consumed)))
       (stderr w) (fs w) (plt_log w)).
Proof.
  intros E Htok Hc Hline. revert token w E Htok.
  induction Hc as [|l consumed Hl Hc IH]; intros token w E Htok.
  - rewrite E. cbn [plot_type_rounds app].
    rewrite bool_decide_eq_false_2 by done.
    unfold bind, print, input. cbn. rewrite E. cbn.
    destruct rest; cbn; rewrite bool_decide_eq_true_2 by done;
      unfold reprompts, set_stdin, write_stdout; cbn; by rewrite <- app_assoc.
  - rewrite E. cbn [plot_type_rounds app].
    rewrite bool_decide_eq_false_2 by done.
    unfold bind, print, input. cbn. rewrite E. cbn.
    set (w1 := set_stdin _ _).
    specialize (IH (lower l) w1 eq_refl Hl). cbn [stdin w1 set_stdin] in IH.
    rewrite IH. unfold reprompts, w1, set_stdin, write_stdout. cbn.
    by rewrite <- !app_assoc.
Qed.

Lemma plot_type_rounds_valid token lines w :
  token ∈ plot_types -> plot_type_rounds lower token lines w = (Ok token, w).
Proof. intros H. destruct lines; cbn; by rewrite bool_decide_eq_true_2. Qed.

(** The [while] loop of lines 134-136, one round unrolled. *)
Lemma plot_type_rounds_unfold token w :
  plot_type_rounds lower token (stdin w) w =
    if bool_decide (token ∈ plot_types) then (Ok token, w)
    else (print invalid_plot_type ;;
          line <- input plot_type_prompt ;;
          (fun w' => plot_type_rounds lower (lower line) (stdin w') w')) w.
Proof.
  destruct (stdin w) as [|l rest] eqn:E; cbn; case_bool_decide; try done;
    unfold bind, print, input; cbn; by rewrite E.
Qed.

Lemma plot_type_loop_found consumed line rest w :
  stdin w = consumed ++ line :: rest ->
  Forall (fun l => lower l ∉ plot_types) consumed ->
  lower line ∈ plot_types ->
  plot_type_loop lower w =
    (Ok (lower line),
     World (environ w) rest
       (stdout w ++ plot_type_prompt :: reprompts (length consumed))
       (stderr w) (fs w) (plt_log w)).
Proof.
  intros E Hc Hline. unfold plot_type_loop, bind, input. rewrite E.
  destruct Hc as [|l consumed Hl Hc]; cbn [app].
  - rewrite plot_type_rounds_valid by done.
    unfold reprompts, set_stdin, write_stdout. by cbn.
  - set (w1 := set_stdin _ _).
    rewrite (plot_type_rounds_found consumed (lower l) line rest w1);
      try done.
    unfold reprompts, w1, set_stdin, write_stdout. cbn.
    by rewrite <- !app_assoc.
Qed.

Lemma plot_type_loop_Ok w tag w' :
  plot_type_loop lower w = (Ok tag, w') -> tag ∈ plot_types.
Proof.
  unfold plot_type_loop, bind, input. destruct (stdin w); [done|].
  apply plot_type_rounds_Ok.
Qed.

(** When no line of the input is a plot type the loop ends with the
    [EOFError] of [input]. *)
Lemma plot_type_rounds_eof token w :
  token ∉ plot_types ->
  Forall (fun l => lower l ∉ plot_types) (stdin w) ->
  fst (plot_type_rounds lower token (stdin w) w) = Raise EOFError.
Proof.
  intros Htok Hall. remember (stdin w) as lines eqn:E. revert token w Htok E.
  induction Hall as [|l lines Hl _ IH]; intros token w Htok E.
  - cbn. rewrite bool_decide_eq_false_2 by done.
    unfold bind, print, input. cbn. by rewrite <- E.
  - cbn. rewrite bool_decide_eq_false_2 by done.
    unfold bind, print, input. cbn. rewrite <- E. by apply IH.
Qed.
End Console.

(** ** Steps that make no pyplot call *)

Lemma keeps_log_ret {A} (a : A) : keeps_log (ret a).
Proof. by intros w r w' [= <- <-]. Qed.

Lemma keeps_log_raise {A} e : keeps_log (@raise A e).
Proof. by intros w r w' [= <- <-]. Qed.

Lemma keeps_log_lift {A} (x : result A) : keeps_log (lift x).
Proof. by intros w r w' [= <- <-]. Qed.

Lemma keeps_log_print s : keeps_log (print s).
Proof. by intros w r w' [= <- <-]. Qed.

Lemma keeps_log_input prompt : keeps_log (input prompt).
Proof.
  intros w r w'. unfold input. by destruct (stdin w); intros [= <- <-].
Qed.

Lemma keeps_log_environ_get key fallback : keeps_log (environ_get key fallback).
Proof. by intros w r w' [= <- <-]. Qed.

Lemma keeps_log_read_file path : keeps_log (read_file path).
Proof.
  intros w r w'. unfold read_file. by destruct (fs w !! path); intros [= <- <-].
Qed.

Lemma keeps_log_bind {A B} (m : M A) (k : A -> M B) :
  keeps_log m -> (forall a, keeps_log (k a)) -> keeps_log (bind m k).
Proof.
  intros Hm Hk w r w' H.
  apply bind_inv in H as [(a & w1 & H1 & H2)|(e & H1 & _)].
  - rewrite (Hk _ _ _ _ H2). by eapply Hm.
  - by eapply Hm.
Qed.

Lemma keeps_log_try_except {A} (body : M A) caught handler :
  keeps_log body -> (forall e, keeps_log (handler e)) ->
  keeps_log (try_except body caught handler).
Proof.
  intros Hb Hh w r w'. unfold try_except.
  destruct (body w) as [[a|e] w1] eqn:E.
  - intros [= <- <-]. by eapply Hb.
  - destruct (caught e).
    + intros H. rewrite (Hh _ _ _ _ H). by eapply Hb.
    + intros [= <- <-]. by eapply Hb.
Qed.

Create HintDb keeps_log.
#[export] Hint Resolve keeps_log_ret keeps_log_raise keeps_log_lift
  keeps_log_print keeps_log_input keeps_log_environ_get keeps_log_read_file
  : keeps_log.
#[export] Hint Extern 2 (keeps_log (bind _ _)) =>
  apply keeps_log_bind; [|intros ?] : keeps_log.
#[export] Hint Extern 2 (keeps_log (try_except _ _ _)) =>
  apply keeps_log_try_except; [|intros ?] : keeps_log.

Section Driver.
Variable int : string -> option Z.
Variable lower : string -> string.
Variable boto3_client : string -> result s3_client.
Variable parse_csv : list Byte.byte -> result dataframe.
Variable plt : pyplot.

Lemma keeps_log_print_numbered i items : keeps_log (print_numbered i items).
Proof.
  revert i. induction items as [|item items IH]; intros i; cbn;
    auto with keeps_log.
Qed.

Lemma keeps_log_selection_loop prompt items :
  keeps_log (selection_loop int prompt items).
Proof.
  assert (keeps_log (selection_round int prompt items)) as Hround.
  { unfold selection_round, sys_exit. auto 10 with keeps_log. }
  intros w r w'. unfold selection_loop. generalize (stdin w) as lines.
  intros lines. revert w. induction lines as [|l lines IH]; intros w; cbn;
    destruct (selection_round int prompt items w) as [[[x|]|e] w1] eqn:E;
    try (intros [= <- <-]; by eapply Hround).
  intros H. rewrite (IH _ H). by eapply Hround.
Qed.

Lemma keeps_log_plot_type_loop : keeps_log (plot_type_loop lower).
Proof.
  assert (forall lines token w r w',
    plot_type_rounds lower token lines w = (r, w') -> plt_log w' = plt_log w)
    as Hrounds.
  { induction lines as [|l lines IH]; intros token w r w'; cbn;
      case_bool_decide; try (by intros [= <- <-]);
      unfold bind, print, input; cbn; destruct (stdin w);
      try (by intros [= <- <-]).
    intros Hr. by rewrite (IH _ _ _ _ Hr). }
  unfold plot_type_loop. apply keeps_log_bind; [auto with keeps_log|].
  intros line w r w'. apply Hrounds.
Qed.

Lemma keeps_log_list_files bucket :
  keeps_log (list_files_in_s3_bucket boto3_client bucket).
Proof. unfold list_files_in_s3_bucket. auto 12 with keeps_log. Qed.

Lemma keeps_log_download bucket key dir :
  keeps_log (download_file_from_s3 boto3_client bucket key dir).
Proof.
  assert (forall s3 path, keeps_log (s3_download_file s3 bucket key path)).
  { intros s3 path w r w'. unfold s3_download_file.
    by destruct (download_file _ _ _ _); intros [= <- <-]. }
  unfold download_file_from_s3, sys_exit. auto 12 with keeps_log.
Qed.

Lemma keeps_log_read_csv path : keeps_log (read_csv parse_csv path).
Proof. unfold read_csv. auto with keeps_log. Qed.

#[local] Hint Resolve keeps_log_print_numbered keeps_log_selection_loop
  keeps_log_plot_type_loop keeps_log_list_files keeps_log_download
  keeps_log_read_csv : keeps_log.

Lemma keeps_log_plot_request :
  keeps_log (plot_request int lower boto3_client parse_csv).
Proof. unfold plot_request. auto 30 with keeps_log. Qed.

Lemma bind_Ok_inv {A B} (m : M A) (k : A -> M B) w b w' :
  bind m k w = (Ok b, w') ->
  exists a w1, m w = (Ok a, w1) /\ k a w1 = (Ok b, w').
Proof. intros H. by apply bind_inv in H as [?|(e & _ & ?)]. Qed.

Lemma plot_request_Ok w df out col tag w' :
  plot_request int lower boto3_client parse_csv w
    = (Ok (df, out, col, tag), w') ->
  tag ∈ plot_types /\ col ∈ columns df.
Proof.
  unfold plot_request. intros H.
  repeat (apply bind_Ok_inv in H as (? & ? & ? & H)).
  injection H as <- <- <- <- <-. split.
  - by eapply plot_type_loop_Ok.
  - by eapply selection_rounds_Ok.
Qed.

(** C8. The plot-type loop lowercases every token it reads, answers every
    token that is not one of the five types with the error message and a new
    prompt, and ends with the first token that is one of them; so whenever
    the driver calls the renderer, the plot type is one of the five (and the
    column is one of the table's), and no pyplot call was made before. *)
Theorem plot_type_validated_upstream :
  (forall w consumed line rest,
     stdin w = consumed ++ line :: rest ->
     Forall (fun l => lower l ∉ plot_types) consumed ->
     lower line ∈ plot_types ->
     plot_type_loop lower w =
       (Ok (lower line),
        World (environ w) rest
          (stdout w ++ plot_type_prompt :: reprompts (length consumed))
          (stderr w) (fs w) (plt_log w)))
  /\ (forall w tag w',
        plot_type_loop lower w = (Ok tag, w') -> tag ∈ plot_types)
  /\ (forall w r w',
        main int lower boto3_client parse_csv plt w = (r, w') ->
        (exists e,
           plot_request int lower boto3_client parse_csv w = (Raise e, w') /\
           r = Raise e /\ calls_made w w' = [])
        \/ (exists df out col tag w1,
              plot_request int lower boto3_client parse_csv w
                = (Ok (df, out, col, tag), w1) /\
              tag ∈ plot_types /\ col ∈ columns df /\
              plt_log w1 = plt_log w /\
              match visualize_data plt df out col tag w1 with
              | (Ok s, w2) => r = Ok s /\ w' = w2
              | (Raise e, w2) => r = Raise e /\ w' = w2
              end)).
Proof.
  split_and!.
  - intros w consumed line rest. apply plot_type_loop_found.
  - apply plot_type_loop_Ok.
  - intros w r w' H. unfold main in H.
    apply bind_inv in H
      as [([[[df out] col] tag] & w1 & Hreq & H)|(e & Hreq & ->)].
    + right. exists df, out, col, tag, w1.
      destruct (plot_request_Ok _ _ _ _ _ _ Hreq) as [Htag Hcol].
      split_and!; [done..|by eapply keeps_log_plot_request|].
      unfold bind, ret in H.
      by destruct (visualize_data _ _ _ _ _ _) as [[s|e] w2];
        injection H as <- <-.
    + left. exists e. split_and!; [done..|].
      unfold calls_made. rewrite (keeps_log_plot_request _ _ _ Hreq).
      by rewrite drop_all.
Qed.

(** *** The fetcher *)

Lemma download_fails bucket key dir s3 e w :
  boto3_client "s3" = Ok s3 ->
  download_file s3 bucket key (path_join dir (basename key)) = Raise e ->
  download_file_from_s3 boto3_client bucket key dir w =
    if is_Exception e
    then (Raise (SystemExit 1), write_stdout (download_error e) w)
    else (Raise e, w).
Proof.
  intros Hc Hd.
  unfold download_file_from_s3, bind, lift, try_except, s3_download_file.
  rewrite Hc, Hd. by destruct (is_Exception e).
Qed.

Lemma download_succeeds bucket key dir s3 data w :
  boto3_client "s3" = Ok s3 ->
  download_file s3 bucket key (path_join dir (basename key)) = Ok data ->
  let local_path := path_join dir (basename key) in
  download_file_from_s3 boto3_client bucket key dir w =
    (Ok local_path,
     write_stdout ("File downloaded successfully to: " +:+ local_path +:+ nl)
       (write_file local_path data w)).
Proof.
  intros Hc Hd.
  unfold download_file_from_s3, bind, lift, try_except, s3_download_file, print.
  by rewrite Hc, Hd.
Qed.

(** C2, as amended. When the driver has reached the download and the
    client's [download_file] raises an exception [e] derived from
    [Exception], the fetcher prints the error line on standard output
    (nothing goes to the error stream, no file is written) and raises
    [SystemExit(1)]: the driver does not go on and the process ends with
    exit code 1. *)
Theorem download_failure_exits w w2 selected_file s3 e :
  let bucket_name := default "datasetentries" (environ w !! "S3_BUCKET_NAME") in
  let output_dir :=
    default "/home/ec2-user/AWS_S3_FILES/" (environ w !! "OUTPUT_DIR") in
  (files <- list_files_in_s3_bucket boto3_client bucket_name ;;
   print "Select a dataset to visualize:" ;;
   print_numbered 1 files ;;
   selection_loop int dataset_prompt files) w = (Ok selected_file, w2) ->
  boto3_client "s3" = Ok s3 ->
  download_file s3 bucket_name selected_file
    (path_join output_dir (basename selected_file)) = Raise e ->
  is_Exception e = true ->
  let w3 := write_stdout (download_error e) w2 in
  download_file_from_s3 boto3_client bucket_name selected_file output_dir w2
    = (Raise (SystemExit 1), w3)
  /\ stdout w3 = stdout w2 ++ [download_error e]
  /\ stderr w3 = stderr w2
  /\ fs w3 = fs w2
  /\ main int lower boto3_client parse_csv plt w = (Raise (SystemExit 1), w3)
  /\ run_process int lower boto3_client parse_csv plt w = (1, w3).
Proof.
  intros bucket_name output_dir Hsel Hc Hd He w3.
  assert (download_file_from_s3 boto3_client bucket_name selected_file
            output_dir w2 = (Raise (SystemExit 1), w3)) as Hdl.
  { by rewrite (download_fails _ _ _ _ _ _ Hc Hd), He. }
  assert (main int lower boto3_client parse_csv plt w
          = (Raise (SystemExit 1), w3)) as Hmain.
  { unfold main, plot_request.
    unfold bind at 1. unfold bind at 1, environ_get at 1.
    unfold bind at 1, environ_get at 1. fold bucket_name output_dir.
    apply bind_Ok_inv in Hsel as (files & w1 & Hfiles & Hsel).
    apply bind_Ok_inv in Hsel as ([] & wa & Hp1 & Hsel).
    apply bind_Ok_inv in Hsel as ([] & wb & Hp2 & Hsel).
    rewrite (bind_Ok _ _ _ _ _ Hfiles), (bind_Ok _ _ _ _ _ Hp1),
      (bind_Ok _ _ _ _ _ Hp2), (bind_Ok _ _ _ _ _ Hsel).
    by rewrite (bind_Raise _ _ _ _ _ Hdl). }
  split_and!; try done.
  unfold run_process. by rewrite Hmain.
Qed.

(** *** The lister *)

Lemma comprehension_length {A B} (f : A -> result B) l ys :
  comprehension f l = Ok ys -> length ys = length l.
Proof.
  revert ys. induction l as [|x l IH]; intros ys; cbn; [by intros [= <-]|].
  destruct (f x); [|done]. destruct (comprehension f l); [|done].
  intros [= <-]. cbn. by rewrite (IH _ eq_refl).
Qed.

(** C9. When the listing response has no ['Contents'] member (an empty
    bucket), the lister raises [KeyError('Contents')] and returns no list;
    whenever it returns a list, the response had a ['Contents'] member and
    the list holds the key of each of its entries. *)
Theorem empty_listing_raises_KeyError bucket_name w s3 response :
  boto3_client "s3" = Ok s3 ->
  list_objects_v2 s3 bucket_name = Ok response ->
  (Contents response = None ->
   list_files_in_s3_bucket boto3_client bucket_name w
     = (Raise (KeyError "Contents"), w))
  /\ (forall files w',
        list_files_in_s3_bucket boto3_client bucket_name w = (Ok files, w') ->
        exists contents,
          Contents response = Some contents /\
          comprehension (fun obj => subscript "Key" (Key obj)) contents
            = Ok files /\
          w' = w).
Proof.
  intros Hc Hl. unfold list_files_in_s3_bucket, bind, lift. rewrite Hc, Hl.
  split.
  - by intros ->.
  - intros files w'. destruct (Contents response) as [contents|]; [|done].
    cbn. destruct (comprehension _ contents) as [ks|e] eqn:E; [|done].
    intros [= <- <-]. by exists contents.
Qed.
End Driver.

(** * The claims on concrete runs *)

Section Runs.
Import Examples.

(** The listing [a.csv], [b.csv]: 1 and 2 select, 3 and text that is not a
    number are rejected and the loop prompts again. *)
Example select_first_file :
  selection_loop decimal_int dataset_prompt ["a.csv"; "b.csv"] (start ["1"])
  = (Ok "a.csv", prompted dataset_prompt [] (start ["1"])).
Proof. reflexivity. Qed.

Example select_second_file :
  selection_loop decimal_int dataset_prompt ["a.csv"; "b.csv"] (start ["2"])
  = (Ok "b.csv", prompted dataset_prompt [] (start ["2"])).
Proof. reflexivity. Qed.

Example select_three_rejected :
  selection_loop decimal_int dataset_prompt ["a.csv"; "b.csv"]
    (start ["3"; "one"; "1"])
  = (Ok "a.csv",
     prompted dataset_prompt []
       (rejected dataset_prompt invalid_selection ["1"]
          (rejected dataset_prompt invalid_selection ["one"; "1"]
             (start ["3"; "one"; "1"])))).
Proof. reflexivity. Qed.

Example select_at_end_of_input :
  fst (selection_loop decimal_int dataset_prompt ["a.csv"; "b.csv"]
         (start ["3"]))
  = Raise EOFError.
Proof. reflexivity. Qed.

(** A line chart of [sales]: one call to [plt.plot] on the five rows, the
    image saved to [plot.png]. *)
Example line_chart_calls :
  plt_log (snd (visualize_data quiet_plt sales_table "/out" "sales" "line"
                  (start [])))
  = [plt_figure (10, 6);
     plt_plot (ObjSeries ["mon"; "tue"; "wed"; "thu"; "fri"])
       (NumSeries [3 # 1; 5 # 1; 4 # 1; 7 # 1; 6 # 1])%Q "o" "-" "sales";
     plt_xlabel "date"; plt_ylabel "sales"; plt_title "Data Visualization";
     plt_xticks 45 "right"; plt_tight_layout; plt_legend;
     plt_savefig "/out/plot.png"; plt_close].
Proof. reflexivity. Qed.

(** A whole run: second file, second column, a bar chart; exit code 0. *)
Example whole_run :
  let run := run_process decimal_int ascii_lower (fun _ => Ok two_files_client)
               (fun _ => Ok sales_table) quiet_plt (start ["2"; "2"; "Bar"]) in
  fst run = 0
  /\ stdout (snd run)
    = ["Select a dataset to visualize:" +:+ nl; "1. a.csv" +:+ nl;
       "2. b.csv" +:+ nl; dataset_prompt;
       "File downloaded successfully to: /home/ec2-user/AWS_S3_FILES/b.csv"
         +:+ nl;
       "Select a column to visualize:" +:+ nl; "1. date" +:+ nl;
       "2. sales" +:+ nl; column_prompt; plot_type_prompt;
       "Plot saved successfully to: /home/ec2-user/AWS_S3_FILES/plot.png"
         +:+ nl].
Proof. split; vm_compute; reflexivity. Qed.

(** C1. With the listing [a.csv], [b.csv] the entry [0] is not rejected: the
    index [0 - 1] counts from the end and selects [b.csv], no error message
    is written and the loop does not prompt again.  The column loop does the
    same on the columns [date], [sales]. *)
Theorem selection_zero_selects_last :
  selection_loop decimal_int dataset_prompt ["a.csv"; "b.csv"] (start ["0"])
    = (Ok "b.csv", prompted dataset_prompt [] (start ["0"]))
  /\ selection_loop decimal_int column_prompt (columns sales_table)
       (start ["0"])
    = (Ok "sales", prompted column_prompt [] (start ["0"])).
Proof. split; reflexivity. Qed.

(** C2, the claim as stated fails: the bucket holds [a.csv] but the object
    cannot be fetched; the fetcher raises [SystemExit(1)], its message is on
    standard output and the error stream is empty. *)
Lemma download_error_not_on_stderr :
  let run := download_file_from_s3 (fun _ => Ok no_such_key_client)
               "datasetentries" "a.csv" "/data" (start []) in
  fst run = Raise (SystemExit 1)
  /\ stderr (snd run) = []
  /\ stdout (snd run) = [download_error not_found].
Proof. repeat split; reflexivity. Qed.

Lemma download_failure_exits_witness :
  fst (run_process decimal_int ascii_lower (fun _ => Ok no_such_key_client)
         (fun _ => Ok sales_table) quiet_plt (start ["2"])) = 1.
Proof.
  pose proof (download_failure_exits decimal_int ascii_lower
                (fun _ => Ok no_such_key_client) (fun _ => Ok sales_table)
                quiet_plt (start ["2"])
                (snd ((files <- list_files_in_s3_bucket
                                  (fun _ => Ok no_such_key_client)
                                  "datasetentries" ;;
                       print "Select a dataset to visualize:" ;;
                       print_numbered 1 files ;;
                       selection_loop decimal_int dataset_prompt files)
                        (start ["2"])))
                "b.csv" no_such_key_client not_found
                eq_refl eq_refl eq_refl eq_refl) as H.
  destruct H as (_ & _ & _ & _ & _ & H). rewrite H. reflexivity.
Defined.

(** C3, the claim as stated fails: the engine cannot write the image file;
    [plt.savefig] is the last pyplot call of the run, [plt.close] is never
    called and the figure opened by [plt.figure] stays open. *)
Lemma figure_left_open_when_savefig_fails :
  let w := start [] in
  let run := visualize_data full_disk_plt sales_table "/out" "sales" "line" w in
  fst run = Raise (LibraryError "OSError" "[Errno 28] No space left on device")
  /\ last (calls_made w (snd run)) = Some (plt_savefig "/out/plot.png")
  /\ List.existsb is_close (calls_made w (snd run)) = false
  /\ open_figures (calls_made w (snd run)) 0 = 1%nat.
Proof. repeat split; reflexivity. Qed.

Lemma close_follows_successful_savefig_witness :
  let w := start [] in
  let run := visualize_data quiet_plt sales_table "/out" "sales" "bar" w in
  open_figures (calls_made w (snd run)) 0 = 0%nat.
Proof.
  intros w run.
  assert (calls_made w (snd run) =
          (plt_figure (10, 6)
             :: plt_bar (ObjSeries ["mon"; "tue"; "wed"; "thu"; "fri"])
                  (NumSeries [3 # 1; 5 # 1; 4 # 1; 7 # 1; 6 # 1])%Q "sales"
             :: decoration "date" "sales")
          ++ plt_savefig "/out/plot.png" :: [plt_close]) as Hcalls
    by (vm_compute; reflexivity).
  pose proof (close_follows_successful_savefig quiet_plt sales_table "/out"
                "sales" "bar" w (fst run) (snd run) _ _ _
                (surjective_pairing run) Hcalls) as H.
  exact (proj2 H).
Defined.

Lemma axis_labels_fixed_witness :
  let run := visualize_data quiet_plt sales_table "/out" "sales" "scatter"
               (start []) in
  exists chart,
    fs (snd run) !! "/out/plot.png" = Some (plt_render quiet_plt chart)
    /\ axis_labels chart = (Some "date", Some "sales").
Proof.
  intros run.
  assert (run = (Ok "iVBORw0KGgo=", snd run)) as Hrun
    by (vm_compute; reflexivity).
  destruct (axis_labels_fixed quiet_plt sales_table "/out" "sales" "scatter"
              (start []) _ _ Hrun) as (x & chart & Hx & Hfs & Hl & _).
  injection Hx as <-. by exists chart.
Defined.

Lemma rendered_image_saved_and_encoded_witness :
  let run := visualize_data quiet_plt sales_table "/out" "sales" "pie"
               (start []) in
  exists image,
    fs (snd run) !! "/out/plot.png" = Some image
    /\ decode_utf8 (Base64.b64encode image) = "iVBORw0KGgo=".
Proof.
  intros run.
  assert (forall log, plt_render quiet_plt log <> []) as Hpng by done.
  assert (run = (Ok "iVBORw0KGgo=", snd run)) as Hrun
    by (vm_compute; reflexivity).
  destruct (rendered_image_saved_and_encoded quiet_plt sales_table "/out"
              "sales" "pie" (start []) _ _ Hpng Hrun)
    as (image & _ & Hfs & Hs & _).
  exists image. split; [|done].
  rewrite Hfs. apply lookup_insert_eq.
Defined.

Lemma hist_draws_target_column_only_witness :
  let w := start [] in
  let run := visualize_data quiet_plt sales_table "/out" "sales" "hist" w in
  List.filter is_draw_call (calls_made w (snd run))
  = [plt_hist (NumSeries [3 # 1; 5 # 1; 4 # 1; 7 # 1; 6 # 1])%Q 10 "sales"
       (8 # 10)].
Proof.
  intros w run.
  assert (run = (Ok "iVBORw0KGgo=", snd run)) as Hrun
    by (vm_compute; reflexivity).
  destruct (hist_draws_target_column_only quiet_plt sales_table "/out"
              "sales" w) as (_ & H & _).
  destruct (H _ _ Hrun) as (ys & Hy & Hd & _).
  injection Hy as <-. exact Hd.
Defined.


Lemma plot_type_validated_upstream_witness :
  plot_type_loop ascii_lower (start ["Pie chart"; "PIE"; "x"])
  = (Ok "pie",
     World ∅ ["x"] (plot_type_prompt :: reprompts 1) [] ∅ []).
Proof.
  destruct (plot_type_validated_upstream decimal_int ascii_lower
              (fun _ => Ok two_files_client) (fun _ => Ok sales_table)
              quiet_plt) as (H & _ & _).
  assert (ascii_lower "Pie chart" ∉ plot_types) as Hbad.
  { unfold plot_types. rewrite !not_elem_of_cons. split_and!; try done.
    apply not_elem_of_nil. }
  assert (ascii_lower "PIE" ∈ plot_types) as Hgood.
  { unfold plot_types. rewrite !elem_of_cons. do 4 right. by left. }
  apply (H (start ["Pie chart"; "PIE"; "x"]) ["Pie chart"] "PIE" ["x"] eq_refl).
  - by apply Forall_singleton.
  - done.
Defined.

Lemma empty_listing_raises_KeyError_witness :
  list_files_in_s3_bucket (fun _ => Ok empty_bucket_client) "datasetentries"
    (start [])
  = (Raise (KeyError "Contents"), start []).
Proof.
  apply (empty_listing_raises_KeyError (fun _ => Ok empty_bucket_client)
           "datasetentries" (start []) empty_bucket_client empty_listing
           eq_refl eq_refl).
  reflexivity.
Defined.

Lemma unrecognized_tag_renders_blank_chart_witness :
  exists w',
    visualize_data quiet_plt sales_table "/out" "no such column" "heatmap"
      (start [])
    = (Ok "iVBORw0KGgo=", w')
    /\ List.filter is_draw_call (calls_made (start []) w') = [].
Proof.
  assert ("heatmap" ∉ plot_types) as Htag.
  { unfold plot_types. rewrite !not_elem_of_cons. split_and!; try done.
    apply not_elem_of_nil. }
  assert (forall log, plt_render quiet_plt log <> []) as Hpng by done.
  assert (forall log c,
            is_draw_call c = false -> plt_raises quiet_plt log c = None)
    as Hquiet by done.
  assert (head (columns sales_table) = Some "date") as Hx by reflexivity.
  destruct (unrecognized_tag_renders_blank_chart quiet_plt sales_table "/out"
              "no such column" "heatmap" (start []) "date" Htag Hx Hquiet Hpng)
    as (s & w' & Hrun & _ & Hnone & _ & Hs & _).
  exists w'. split; [|done]. rewrite Hrun, Hs. reflexivity.
Defined.
End Runs.

(** * Further properties of the script *)

(** ** Steps that touch only the console *)

Lemma console_only_ret {A} (a : A) : console_only (ret a).
Proof. by intros w r w' [= <- <-]. Qed.

Lemma console_only_lift {A} (x : result A) : console_only (lift x).
Proof. by intros w r w' [= <- <-]. Qed.

Lemma console_only_print s : console_only (print s).
Proof. by intros w r w' [= <- <-]. Qed.

Lemma console_only_input prompt : console_only (input prompt).
Proof.
  intros w r w'. unfold input. by destruct (stdin w); intros [= <- <-].
Qed.

Lemma console_only_bind {A B} (m : M A) (k : A -> M B) :
  console_only m -> (forall a, console_only (k a)) -> console_only (bind m k).
Proof.
  intros Hm Hk w r w' H.
  apply bind_inv in H as [(a & w1 & H1 & H2)|(e & H1 & _)].
  - destruct (Hm _ _ _ H1) as (? & ? & ? & ?).
    destruct (Hk _ _ _ _ H2) as (? & ? & ? & ?). split_and!; congruence.
  - by eapply Hm.
Qed.

Lemma console_only_try_except {A} (body : M A) caught handler :
  console_only body -> (forall e, console_only (handler e)) ->
  console_only (try_except body caught handler).
Proof.
  intros Hb Hh w r w'. unfold try_except.
  destruct (body w) as [[a|e] w1] eqn:E.
  - intros [= <- <-]. by eapply Hb.
  - destruct (caught e).
    + intros H. destruct (Hb _ _ _ E) as (? & ? & ? & ?).
      destruct (Hh _ _ _ _ H) as (? & ? & ? & ?). split_and!; congruence.
    + intros [= <- <-]. by eapply Hb.
Qed.

Create HintDb console_only.
#[export] Hint Resolve console_only_ret console_only_lift console_only_print
  console_only_input : console_only.
#[export] Hint Extern 2 (console_only (bind _ _)) =>
  apply console_only_bind; [|intros ?] : console_only.
#[export] Hint Extern 2 (console_only (try_except _ _ _)) =>
  apply console_only_try_except; [|intros ?] : console_only.

Lemma console_only_print_numbered i items :
  console_only (print_numbered i items).
Proof.
  revert i. induction items as [|item items IH]; intros i; cbn;
    auto with console_only.
Qed.

Section SelectionLoop.
Variable int : string -> option Z.

Lemma console_only_selection_round prompt items :
  console_only (selection_round int prompt items).
Proof. unfold selection_round. auto 10 with console_only. Qed.

Lemma console_only_selection_loop prompt items :
  console_only (selection_loop int prompt items).
Proof.
  pose proof (console_only_selection_round prompt items) as Hround.
  intros w r w'. unfold selection_loop. generalize (stdin w) as lines.
  intros lines. revert w. induction lines as [|l lines IH]; intros w; cbn;
    destruct (selection_round int prompt items w) as [[[x|]|e] w1] eqn:E;
    try (intros [= <- <-]; by eapply Hround).
  intros H. destruct (Hround _ _ _ E) as (? & ? & ? & ?).
  destruct (IH _ H) as (? & ? & ? & ?). split_and!; congruence.
Qed.

(** One round on a rejected line: the message, then the loop again. *)
Lemma selection_rejected_step prompt items w line rest :
  stdin w = line :: rest ->
  entry_rejected int (Z.of_nat (length items)) line = true ->
  selection_loop int prompt items w =
  selection_loop int prompt items (rejected prompt invalid_selection rest w).
Proof.
  intros E. unfold entry_rejected. destruct (int line) as [i|] eqn:Hi.
  - intros [H%Z.leb_le|H%Z.ltb_lt]%orb_prop.
    + by eapply selection_below_rejected.
    + by eapply selection_above_rejected.
  - intros _. by eapply selection_unparsable_rejected.
Qed.

(** One round on any other line: the loop ends with an item. *)
Lemma selection_accepted_step prompt items w line rest :
  stdin w = line :: rest ->
  entry_rejected int (Z.of_nat (length items)) line = false ->
  exists i item,
    int line = Some i /\
    - Z.of_nat (length items) < i <= Z.of_nat (length items) /\
    items !! Z.to_nat ((i - 1) mod Z.of_nat (length items)) = Some item /\
    selection_loop int prompt items w = (Ok item, prompted prompt rest w).
Proof.
  intros E. unfold entry_rejected. destruct (int line) as [i|] eqn:Hi; [|done].
  intros [H1%Z.leb_gt H2%Z.ltb_ge]%orb_false_elim.
  set (n := Z.of_nat (length items)) in *.
  destruct (Z.le_gt_cases i 0) as [Hneg|Hpos].
  - destruct (selection_nonpositive_wraps int prompt items w line rest i E Hi)
      as (item & Hitem & Hloop); [lia|].
    exists i, item. split; [done|]. split; [lia|]. split; [|done].
    replace ((i - 1) mod n) with (i - 1 + n); [done|].
    apply Z.mod_unique with (-1); lia.
  - destruct (selection_in_range int prompt items w line rest i E Hi)
      as (item & Hitem & Hloop); [lia|].
    exists i, item. split; [done|]. split; [lia|]. split; [|done].
    rewrite Z.mod_small by lia. done.
Qed.

Lemma selection_skips prompt items skipped tail w :
  stdin w = skipped ++ tail ->
  Forall (fun l => entry_rejected int (Z.of_nat (length items)) l = true)
    skipped ->
  selection_loop int prompt items w =
  selection_loop int prompt items
    (World (environ w) tail
       (stdout w ++ selection_reprompts prompt (length skipped))
       (stderr w) (fs w) (plt_log w)).
Proof.
  intros E Hs. revert w E. induction Hs as [|l skipped Hl _ IH]; intros w E.
  - cbn in E. unfold selection_reprompts. cbn. rewrite app_nil_r, <- E.
    by destruct w.
  - rewrite (selection_rejected_step prompt items w l (skipped ++ tail) E Hl).
    rewrite IH by done. f_equal.
    unfold rejected, prompted, set_stdin, write_stdout, selection_reprompts.
    cbn. by rewrite <- !app_assoc.
Qed.

Lemma selection_loop_exhausted prompt items w :
  Forall (fun l => entry_rejected int (Z.of_nat (length items)) l = true)
    (stdin w) ->
  selection_loop int prompt items w =
    (Raise EOFError,
     World (environ w) []
       (stdout w ++ selection_reprompts prompt (length (stdin w)) ++ [prompt])
       (stderr w) (fs w) (plt_log w)).
Proof.
  intros Hs.
  rewrite (selection_skips prompt items (stdin w) [] w) by
    (by rewrite ?app_nil_r).
  rewrite selection_loop_unfold, selection_round_eof by done.
  unfold write_stdout. cbn. by rewrite <- app_assoc.
Qed.




End SelectionLoop.

(** ** The numbered listing *)

Lemma print_numbered_run i items w :
  print_numbered i items w =
    (Ok tt,
     World (environ w) (stdin w) (stdout w ++ imap (numbered_line i) items)
       (stderr w) (fs w) (plt_log w)).
Proof.
  revert i w. induction items as [|item items IH]; intros i w.
  - cbn. unfold ret. rewrite app_nil_r. by destruct w.
  - cbn [print_numbered]. unfold bind, print. rewrite IH.
    unfold write_stdout. cbn. f_equal. f_equal. rewrite <- app_assoc. cbn.
    unfold numbered_line at 2. rewrite Z.add_0_r. do 2 f_equal.
    apply imap_ext. intros j x _. unfold numbered_line. cbn.
    do 3 f_equal. lia.
Qed.

(** X5. The listing loop prints one line per item, in order, numbered from
    1: the line of the item at index [j] is [str(j + 1)], a dot, a space and
    the item; it reads nothing and writes no file. *)
Theorem listing_numbered_from_one items w :
  let run := print_numbered 1 items w in
  fst run = Ok tt
  /\ stdout (snd run) = stdout w ++ imap (numbered_line 1) items
  /\ length (stdout (snd run)) = (length (stdout w) + length items)%nat
  /\ (forall j item,
        items !! j = Some item ->
        stdout (snd run) !! (length (stdout w) + j)%nat
        = Some ((pretty (Z.of_nat (S j)) +:+ ". " +:+ item) +:+ nl))
  /\ stdin (snd run) = stdin w /\ fs (snd run) = fs w.
Proof.
  intros run. subst run. rewrite print_numbered_run. cbn.
  split_and!; try done.
  - by rewrite length_app, length_imap.
  - intros j item Hj. rewrite lookup_app_r by lia.
    replace (length (stdout w) + j - length (stdout w))%nat with j by lia.
    rewrite list_lookup_imap, Hj. cbn. unfold numbered_line.
    do 4 f_equal. lia.
Qed.

Section Listing.
Variable int : string -> option Z.

(** X6. The number shown next to an item selects it: after the listing is
    printed, typing back the number displayed on a line (when [int] reads
    it as that number) makes the selection loop return the item of that
    line at once. *)
Theorem displayed_number_selects_item prompt items j item rest w :
  items !! j = Some item ->
  stdin w = pretty (Z.of_nat (S j)) :: rest ->
  int (pretty (Z.of_nat (S j))) = Some (Z.of_nat (S j)) ->
  exists w',
    (print_numbered 1 items ;; selection_loop int prompt items) w
      = (Ok item, w')
    /\ stdout w' !! (length (stdout w) + j)%nat
       = Some ((pretty (Z.of_nat (S j)) +:+ ". " +:+ item) +:+ nl)
    /\ stdin w' = rest.
Proof.
  intros Hj E Hint.
  pose proof (lookup_lt_Some _ _ _ Hj) as Hlt.
  rewrite (bind_Ok _ _ _ _ _ (print_numbered_run 1 items w)).
  set (w1 := World _ _ _ _ _ _).
  destruct (selection_in_range int prompt items w1 _ rest _ E Hint)
    as (item' & Hitem' & ->); [lia|].
  replace (Z.to_nat (Z.of_nat (S j) - 1)) with j in Hitem' by lia.
  assert (item' = item) as -> by congruence.
  eexists. split; [done|]. split; [|done].
  unfold prompted, set_stdin, write_stdout, w1. cbn.
  rewrite <- app_assoc, lookup_app_r by lia.
  replace (length (stdout w) + j - length (stdout w))%nat with j by lia.
  rewrite lookup_app_l by (rewrite length_imap; lia).
  rewrite list_lookup_imap, Hj. cbn. unfold numbered_line.
  do 4 f_equal. lia.
Qed.
End Listing.

(** ** The lister *)

Lemma comprehension_keys objs keys :
  Forall2 (fun obj k => Key obj = Some k) objs keys ->
  comprehension (fun obj => subscript "Key" (Key obj)) objs = Ok keys.
Proof.
  induction 1 as [|obj k objs keys Hk _ IH]; [done|].
  cbn. by rewrite Hk, IH.
Qed.

Lemma comprehension_missing_key objs :
  Exists (fun obj => Key obj = None) objs ->
  comprehension (fun obj => subscript "Key" (Key obj)) objs
  = Raise (KeyError "Key").
Proof.
  induction 1 as [obj objs Hk|obj objs _ IH]; cbn.
  - by rewrite Hk.
  - rewrite IH. by destruct (Key obj).
Qed.

Section Lister.
Variable boto3_client : string -> result s3_client.

Lemma list_files_state bucket_name w :
  snd (list_files_in_s3_bucket boto3_client bucket_name w) = w.
Proof.
  unfold list_files_in_s3_bucket, bind, lift, ret.
  destruct (boto3_client "s3") as [s3|]; [|done].
  destruct (list_objects_v2 s3 bucket_name) as [response|]; [|done].
  destruct (subscript "Contents" (Contents response)) as [objs|]; [|done].
  by destruct (comprehension _ objs).
Qed.

(** X7. When every entry of the response's ['Contents'] has a ['Key'], the
    lister returns exactly those keys, one per entry and in the order of
    the response, and changes nothing in the process state. *)
Theorem list_files_returns_keys_in_order bucket_name w s3 response objs keys :
  boto3_client "s3" = Ok s3 ->
  list_objects_v2 s3 bucket_name = Ok response ->
  Contents response = Some objs ->
  Forall2 (fun obj k => Key obj = Some k) objs keys ->
  list_files_in_s3_bucket boto3_client bucket_name w = (Ok keys, w)
  /\ length keys = length objs.
Proof.
  intros Hc Hl Hcontents Hkeys. split.
  - unfold list_files_in_s3_bucket, bind, lift, ret.
    rewrite Hc, Hl, Hcontents. cbn. by rewrite (comprehension_keys _ _ Hkeys).
  - symmetry. by eapply Forall2_length.
Qed.

(** X8. The lister catches nothing and has no effect on the process
    state: an exception raised when the client is created or by the listing
    call leaves the function unchanged, and an entry without a ['Key']
    raises [KeyError('Key')] instead of being skipped. *)
Theorem list_files_failures_propagate bucket_name w :
  let run := list_files_in_s3_bucket boto3_client bucket_name w in
  snd run = w
  /\ (forall e, boto3_client "s3" = Raise e -> fst run = Raise e)
  /\ (forall s3 e,
        boto3_client "s3" = Ok s3 ->
        list_objects_v2 s3 bucket_name = Raise e ->
        fst run = Raise e)
  /\ (forall s3 response objs,
        boto3_client "s3" = Ok s3 ->
        list_objects_v2 s3 bucket_name = Ok response ->
        Contents response = Some objs ->
        Exists (fun obj => Key obj = None) objs ->
        fst run = Raise (KeyError "Key")).
Proof.
  intros run. split; [apply list_files_state|].
  subst run. unfold list_files_in_s3_bucket, bind, lift, ret. split_and!.
  - by intros e ->.
  - by intros s3 e -> ->.
  - intros s3 response objs -> -> -> Hex. cbn.
    by rewrite (comprehension_missing_key _ Hex).
Qed.
End Lister.

(** ** Paths *)

Lemma has_slash_append a b :
  has_slash (a +:+ b) = has_slash a || has_slash b.
Proof.
  induction a as [|c a IH]; [done|].
  change (String c a +:+ b) with (String c (a +:+ b)). cbn.
  by rewrite IH, orb_assoc.
Qed.

Lemma basename_aux_no_slash acc p :
  has_slash p = false -> basename_aux acc p = acc +:+ p.
Proof.
  revert acc. induction p as [|c p IH]; intros acc; cbn.
  - intros _. induction acc as [|x acc IHacc]; [done|].
    change (String x acc = String x (acc +:+ "")). by rewrite <- IHacc.
  - intros [Hc Hp]%orb_false_elim. rewrite Hc, IH by done.
    apply append_assoc.
Qed.

Lemma basename_aux_has_no_slash acc p :
  has_slash acc = false -> has_slash (basename_aux acc p) = false.
Proof.
  revert acc. induction p as [|c p IH]; intros acc Hacc; cbn; [done|].
  destruct (Ascii.eqb c "/") eqn:Hc; apply IH; [done|].
  rewrite has_slash_append, Hacc. cbn. by rewrite Hc.
Qed.

Lemma basename_no_slash p : has_slash (basename p) = false.
Proof. by apply basename_aux_has_no_slash. Qed.

Lemma path_join_relative dir name :
  has_slash name = false ->
  path_join dir name =
    match dir with
    | EmptyString => name
    | _ => if ends_with_slash dir then dir +:+ name else dir +:+ "/" +:+ name
    end.
Proof.
  destruct name as [|c name]; [done|]. cbn.
  intros [Hc _]%orb_false_elim.
  by destruct c as [[] [] [] [] [] [] [] []].
Qed.

(** The file name of [os.path.join(dir, name)] is [name] when [name] holds
    no slash. *)
Lemma basename_path_join dir name :
  has_slash name = false -> basename (path_join dir name) = name.
Proof.
  intros Hn. rewrite path_join_relative by done.
  assert (basename_aux "" name = name) as Hb
    by (by rewrite basename_aux_no_slash).
  unfold basename. destruct dir as [|d dir]; [done|].
  destruct (ends_with_slash (String d dir)) eqn:E.
  - apply ends_with_slash_split in E as [p ->].
    rewrite append_assoc.
    etrans; [apply (basename_aux_slash "" p name)|exact Hb].
  - etrans; [apply (basename_aux_slash "" (String d dir) name)|exact Hb].
Qed.

Section Fetcher.
Variable boto3_client : string -> result s3_client.
Variable parse_csv : list Byte.byte -> result dataframe.

(** X9. A download that succeeds returns [join(local_dir, basename(key))],
    stores the object's bytes at that path (replacing what was there, no
    other file changes), prints the success line on standard output and
    nothing on the error stream; the file lands directly in [local_dir],
    under the last component of the key. *)
Theorem download_stores_object bucket_name file_key local_dir s3 data w :
  boto3_client "s3" = Ok s3 ->
  download_file s3 bucket_name file_key
    (path_join local_dir (basename file_key)) = Ok data ->
  let local_path := path_join local_dir (basename file_key) in
  exists w',
    download_file_from_s3 boto3_client bucket_name file_key local_dir w
      = (Ok local_path, w')
    /\ fs w' = <[local_path := data]> (fs w)
    /\ stdout w'
       = stdout w
         ++ [("File downloaded successfully to: " +:+ local_path) +:+ nl]
    /\ stderr w' = stderr w
    /\ basename local_path = basename file_key.
Proof.
  intros Hc Hd local_path. eexists. split.
  - unfold download_file_from_s3, bind, lift, try_except, s3_download_file,
      print.
    rewrite Hc, Hd. reflexivity.
  - split_and!; try done. apply basename_path_join, basename_no_slash.
Qed.

(** X10. The client is created outside the [try] block: an exception raised
    by [boto3.client] leaves the fetcher as it is, even when it derives from
    [Exception]; no message is printed and the process is not exited. *)
Theorem client_failure_escapes_handler bucket_name file_key local_dir e w :
  boto3_client "s3" = Raise e ->
  download_file_from_s3 boto3_client bucket_name file_key local_dir w
  = (Raise e, w).
Proof.
  intros Hc. unfold download_file_from_s3, bind, lift. by rewrite Hc.
Qed.

(** X11. After a download that succeeds, reading the returned path as CSV
    gives what the parser makes of the object's bytes (the table, or the
    parser's exception): the file is always found. *)
Theorem downloaded_file_is_parsed bucket_name file_key local_dir s3 data w :
  boto3_client "s3" = Ok s3 ->
  download_file s3 bucket_name file_key
    (path_join local_dir (basename file_key)) = Ok data ->
  let run :=
    (local_path <-
       download_file_from_s3 boto3_client bucket_name file_key local_dir ;;
     read_csv parse_csv local_path) w in
  fst run = parse_csv data
  /\ fs (snd run) !! path_join local_dir (basename file_key) = Some data.
Proof.
  intros Hc Hd run. subst run.
  rewrite (bind_Ok _ _ _ _ _
             (download_succeeds boto3_client _ _ _ _ _ w Hc Hd)).
  unfold read_csv, bind, read_file, lift.
  cbn [fs write_stdout write_file]. rewrite lookup_insert_eq.
  destruct (parse_csv data); split; try done; apply lookup_insert_eq.
Qed.
End Fetcher.

(** ** The renderer *)

Lemma df_getitem_missing df name :
  name ∉ columns df -> df_getitem df name = Raise (KeyError name).
Proof.
  induction df as [|[c s] rest IH]; [done|]. cbn.
  intros [Hc Hrest]%not_elem_of_cons.
  rewrite (proj2 (String.eqb_neq c name)) by congruence. by apply IH.
Qed.

Lemma df_getitem_Ok_elem_of df name s :
  df_getitem df name = Ok s -> name ∈ columns df.
Proof.
  induction df as [|[c s0] rest IH]; [done|]. cbn.
  destruct (String.eqb c name) eqn:E.
  - apply String.eqb_eq in E as ->. intros _. apply list_elem_of_here.
  - intros H. apply list_elem_of_further. by apply IH.
Qed.

Section Renderer.
Variable plt : pyplot.


(** X13. For each of the five plot types, a selected column that is not in
    the table raises [KeyError] of its name right after [plt.figure]:
    nothing is drawn or saved and the figure is not closed. *)
Theorem missing_column_raises_KeyError df out col tag w x :
  tag ∈ plot_types ->
  head (columns df) = Some x ->
  col ∉ columns df ->
  plt_raises plt (plt_log w) (plt_figure (10, 6)) = None ->
  visualize_data plt df out col tag w
  = (Raise (KeyError col), log_call (plt_figure (10, 6)) w).
Proof.
  intros Htag Hx Hcol Hfig. apply getitem_zero in Hx.
  destruct (df_getitem_first _ _ Hx) as [xs Hxs].
  pose proof (df_getitem_missing _ _ Hcol) as Hy.
  unfold visualize_data.
  erewrite bind_Ok by (by apply call_Ok).
  unfold bind at 1, lift at 1. rewrite Hx.
  apply bind_Raise.
  unfold plot_types in Htag. rewrite !elem_of_cons, elem_of_nil in Htag.
  destruct Htag as [->|[->|[->|[->|[->|[]]]]]]; unfold draw;
    cbn [String.eqb Ascii.eqb Bool.eqb]; unfold bind, lift;
    by rewrite ?Hxs, Hy.
Qed.


(** X15. A render that succeeds for one of the five plot types has made
    exactly one draw call, the one the dispatch table gives for that type on
    the first and the selected column; the selected column is one of the
    table's. *)
Theorem recognized_type_draws_once df out col tag w s w' :
  visualize_data plt df out col tag w = (Ok s, w') ->
  tag ∈ plot_types ->
  exists x c,
    head (columns df) = Some x
    /\ col ∈ columns df
    /\ List.filter is_draw_call (calls_made w w') = [c]
    /\ drawn_by df x col tag [c].
Proof.
  intros H Htag.
  apply visualize_data_Ok in H as (x & drawn & Hx & Hd & _ & ->).
  erewrite calls_made_app by reflexivity.
  exists x.
  inversion Hd as [xs ys Hxs Hys|xs ys Hxs Hys|ys Hys|xs ys Hxs Hys
                  |xs ys Hxs Hys|? Hn]; subst; [..|done];
    eexists; (split; [by apply getitem_zero|]);
    (split; [by eapply df_getitem_Ok_elem_of|]); split; done.
Qed.
End Renderer.

(** ** The plot-type loop and the driver *)

Section PlotTypeLoop.
Variable lower : string -> string.

Lemma console_only_plot_type_rounds token lines w r w' :
  plot_type_rounds lower token lines w = (r, w') ->
  environ w' = environ w /\ stderr w' = stderr w /\ fs w' = fs w
  /\ plt_log w' = plt_log w.
Proof.
  revert token w. induction lines as [|l lines IH]; intros token w; cbn;
    case_bool_decide; try (by intros [= <- <-]);
    unfold bind, print, input; cbn; destruct (stdin w);
    try (by intros [= <- <-]).
  intros Hr. by destruct (IH _ _ Hr) as (-> & -> & -> & ->).
Qed.

Lemma console_only_plot_type_loop : console_only (plot_type_loop lower).
Proof.
  unfold plot_type_loop. apply console_only_bind; [auto with console_only|].
  intros line w r w'. apply console_only_plot_type_rounds.
Qed.

Lemma plot_type_rounds_outcome lines token w :
  stdin w = lines ->
  let run := plot_type_rounds lower token lines w in
  (exists consumed, lines = consumed ++ stdin (snd run))
  /\ match fst run with
     | Ok tag => tag ∈ plot_types
     | Raise e =>
         e = EOFError /\ stdin (snd run) = [] /\ (token ∉ plot_types) /\
         Forall (fun l => lower l ∉ plot_types) lines
     end.
Proof.
  revert token w. induction lines as [|l lines IH]; intros token w E; cbn;
    case_bool_decide as Htok; cbn.
  - split; [by exists []|done].
  - unfold bind, print, input. cbn. rewrite E. cbn. split; [by exists []|done].
  - split; [|done]. exists []. by rewrite E.
  - unfold bind, print, input. cbn. rewrite E. cbn.
    set (w1 := set_stdin _ _).
    destruct (IH (lower l) w1 eq_refl) as [[consumed Hc] Hout].
    split; [exists (l :: consumed); by rewrite <- app_comm_cons, <- Hc|].
    destruct (fst (plot_type_rounds lower (lower l) lines w1)) as [tag|e];
      [done|].
    destruct Hout as (-> & Hnil & Hl & Hall). split_and!; try done.
    by apply Forall_cons_2.
Qed.

(** X16. Every run of the plot-type loop reads a prefix of the console
    input and touches nothing but the console; when it returns, the value
    is one of the five plot types; when it raises, the exception is
    [EOFError], the input is used up and no line of it lowercases to a plot
    type. *)
Theorem plot_type_loop_outcome w :
  let run := plot_type_loop lower w in
  environ (snd run) = environ w /\ stderr (snd run) = stderr w
  /\ fs (snd run) = fs w /\ plt_log (snd run) = plt_log w
  /\ (exists consumed, stdin w = consumed ++ stdin (snd run))
  /\ match fst run with
     | Ok tag => tag ∈ plot_types
     | Raise e =>
         e = EOFError /\ stdin (snd run) = [] /\
         Forall (fun l => lower l ∉ plot_types) (stdin w)
     end.
Proof.
  intros run.
  destruct (console_only_plot_type_loop w (fst run) (snd run))
    as (He & Hs & Hf & Hl); [apply surjective_pairing|].
  split_and!; try done; clear He Hs Hf Hl; subst run;
    unfold plot_type_loop, bind, input;
    destruct (stdin w) as [|l lines] eqn:E; cbn.
  - by exists [].
  - set (w1 := set_stdin _ _).
    destruct (plot_type_rounds_outcome lines (lower l) w1 eq_refl)
      as [[consumed Hc] _].
    exists (l :: consumed). by rewrite <- app_comm_cons, <- Hc.
  - by rewrite E.
  - set (w1 := set_stdin _ _).
    destruct (plot_type_rounds_outcome lines (lower l) w1 eq_refl)
      as [_ Hout].
    destruct (fst (plot_type_rounds lower (lower l) lines w1)); [done|].
    destruct Hout as (-> & ? & ? & ?). split_and!; try done.
    by apply Forall_cons_2.
Qed.
End PlotTypeLoop.

Section Process.
Variable int : string -> option Z.
Variable lower : string -> string.
Variable boto3_client : string -> result s3_client.
Variable parse_csv : list Byte.byte -> result dataframe.
Variable plt : pyplot.

Lemma run_process_Exception w e w' :
  main int lower boto3_client parse_csv plt w = (Raise e, w') ->
  is_Exception e = true ->
  run_process int lower boto3_client parse_csv plt w
  = (1, write_stderr ("Traceback: " +:+ exn_str e) w').
Proof. unfold run_process. intros -> He. by destruct e. Qed.

(** X17. A listing that fails with an exception derived from [Exception]
    ends the process with exit code 1 and a traceback on the error stream,
    before anything is printed or read. *)
Theorem listing_failure_ends_process w e :
  fst (list_files_in_s3_bucket boto3_client
         (default "datasetentries" (environ w !! "S3_BUCKET_NAME")) w)
  = Raise e ->
  is_Exception e = true ->
  run_process int lower boto3_client parse_csv plt w
  = (1, write_stderr ("Traceback: " +:+ exn_str e) w).
Proof.
  intros Hl He. apply run_process_Exception; [|done].
  unfold main. apply bind_Raise. unfold plot_request.
  unfold bind at 1, environ_get at 1.
  unfold bind at 1, environ_get at 1.
  apply bind_Raise.
  by rewrite (surjective_pairing (list_files_in_s3_bucket _ _ _)), Hl,
    list_files_state.
Qed.

Lemma download_Ok_inv bucket_name file_key local_dir w local_path w' :
  download_file_from_s3 boto3_client bucket_name file_key local_dir w
    = (Ok local_path, w') ->
  local_path = path_join local_dir (basename file_key)
  /\ exists data,
       fs w' = <[local_path := data]> (fs w) /\ plt_log w' = plt_log w.
Proof.
  unfold download_file_from_s3, bind, lift, try_except, s3_download_file,
    print, sys_exit, raise.
  destruct (boto3_client "s3") as [s3|]; [|done].
  destruct (download_file s3 _ _ _) as [data|e].
  - intros [= <- <-]. split; [done|]. by exists data.
  - by destruct (is_Exception e).
Qed.

(** X18. When the downloaded file does not parse, the parser's exception is
    not caught: the process ends with exit code 1 and a traceback on the
    error stream, in the state the download left (the file stays on disk,
    no column is asked for, no pyplot call is made). *)
Theorem parse_failure_ends_process w w2 local_path data e :
  let bucket_name := default "datasetentries" (environ w !! "S3_BUCKET_NAME") in
  let output_dir :=
    default "/home/ec2-user/AWS_S3_FILES/" (environ w !! "OUTPUT_DIR") in
  (files <- list_files_in_s3_bucket boto3_client bucket_name ;;
   print "Select a dataset to visualize:" ;;
   print_numbered 1 files ;;
   selected_file <- selection_loop int dataset_prompt files ;;
   download_file_from_s3 boto3_client bucket_name selected_file output_dir) w
    = (Ok local_path, w2) ->
  fs w2 !! local_path = Some data ->
  parse_csv data = Raise e ->
  is_Exception e = true ->
  run_process int lower boto3_client parse_csv plt w
  = (1, write_stderr ("Traceback: " +:+ exn_str e) w2).
Proof.
  intros bucket_name output_dir Hpre Hfs Hparse He.
  apply run_process_Exception; [|done].
  unfold main. apply bind_Raise. unfold plot_request.
  unfold bind at 1, environ_get at 1.
  unfold bind at 1, environ_get at 1. fold bucket_name output_dir.
  apply bind_Ok_inv in Hpre as (files & w1 & Hfiles & Hpre).
  apply bind_Ok_inv in Hpre as ([] & wa & Hp1 & Hpre).
  apply bind_Ok_inv in Hpre as ([] & wb & Hp2 & Hpre).
  apply bind_Ok_inv in Hpre as (selected & wc & Hsel & Hdl).
  rewrite (bind_Ok _ _ _ _ _ Hfiles), (bind_Ok _ _ _ _ _ Hp1),
    (bind_Ok _ _ _ _ _ Hp2), (bind_Ok _ _ _ _ _ Hsel),
    (bind_Ok _ _ _ _ _ Hdl).
  apply bind_Raise. unfold read_csv, bind, read_file, lift.
  by rewrite Hfs, Hparse.
Qed.

End Process.

(** ** The further properties on concrete runs *)

Section MoreRuns.
Import Examples.



Lemma displayed_number_selects_item_witness :
  fst ((print_numbered 1 ["a.csv"; "b.csv"] ;;
        selection_loop decimal_int dataset_prompt ["a.csv"; "b.csv"])
         (start ["2"]))
  = Ok "b.csv".
Proof.
  destruct (displayed_number_selects_item decimal_int dataset_prompt
              ["a.csv"; "b.csv"] 1%nat "b.csv" [] (start ["2"])
              eq_refl eq_refl eq_refl) as (w' & -> & _).
  reflexivity.
Defined.

Lemma list_files_returns_keys_in_order_witness :
  list_files_in_s3_bucket (fun _ => Ok two_files_client) "datasetentries"
    (start [])
  = (Ok ["a.csv"; "b.csv"], start []).
Proof.
  apply (list_files_returns_keys_in_order (fun _ => Ok two_files_client)
           "datasetentries" (start []) two_files_client
           (listing ["a.csv"; "b.csv"])
           [S3Object (Some "a.csv") (Some 0); S3Object (Some "b.csv") (Some 0)]
           ["a.csv"; "b.csv"] eq_refl eq_refl eq_refl).
  by repeat constructor.
Defined.

Lemma download_stores_object_witness :
  exists w',
    download_file_from_s3 (fun _ => Ok two_files_client) "datasetentries"
      "reports/2024/b.csv" "/data" (start [])
    = (Ok "/data/b.csv", w')
    /\ fs w' !! "/data/b.csv" = Some csv_bytes.
Proof.
  destruct (download_stores_object (fun _ => Ok two_files_client)
              "datasetentries" "reports/2024/b.csv" "/data" two_files_client
              csv_bytes (start []) eq_refl eq_refl)
    as (w' & Hrun & Hfs & _).
  exists w'. split; [exact Hrun|]. rewrite Hfs. apply lookup_insert_eq.
Defined.

Lemma client_failure_escapes_handler_witness :
  download_file_from_s3
    (fun _ => Raise (LibraryError "NoRegionError" "You must specify a region."))
    "datasetentries" "a.csv" "/data" (start [])
  = (Raise (LibraryError "NoRegionError" "You must specify a region."),
     start []).
Proof. by apply client_failure_escapes_handler. Defined.

Lemma downloaded_file_is_parsed_witness :
  fst ((local_path <-
          download_file_from_s3 (fun _ => Ok two_files_client)
            "datasetentries" "a.csv" "/data" ;;
        read_csv (fun _ => Ok sales_table) local_path) (start []))
  = Ok sales_table.
Proof.
  by destruct (downloaded_file_is_parsed (fun _ => Ok two_files_client)
                 (fun _ => Ok sales_table) "datasetentries" "a.csv" "/data"
                 two_files_client csv_bytes (start []) eq_refl eq_refl)
    as [-> _].
Defined.

Lemma missing_column_raises_KeyError_witness :
  visualize_data quiet_plt sales_table "/out" "profit" "bar" (start [])
  = (Raise (KeyError "profit"), log_call (plt_figure (10, 6)) (start [])).
Proof.
  apply (missing_column_raises_KeyError quiet_plt sales_table "/out" "profit"
           "bar" (start []) "date"); try done.
  - unfold plot_types. rewrite !elem_of_cons. do 3 right. by left.
  - cbn. rewrite !not_elem_of_cons. split_and!; try done.
    apply not_elem_of_nil.
Defined.


Lemma recognized_type_draws_once_witness :
  let w := start [] in
  let run := visualize_data quiet_plt sales_table "/out" "sales" "pie" w in
  exists c, List.filter is_draw_call (calls_made w (snd run)) = [c].
Proof.
  intros w run.
  assert (run = (Ok "iVBORw0KGgo=", snd run)) as Hrun
    by (vm_compute; reflexivity).
  assert ("pie" ∈ plot_types) as Htag.
  { unfold plot_types. rewrite !elem_of_cons. do 4 right. by left. }
  destruct (recognized_type_draws_once quiet_plt sales_table "/out" "sales"
              "pie" w _ _ Hrun Htag) as (x & c & _ & _ & Hc & _).
  by exists c.
Defined.

Lemma listing_failure_ends_process_witness :
  fst (run_process decimal_int ascii_lower (fun _ => Ok empty_bucket_client)
         (fun _ => Ok sales_table) quiet_plt (start ["1"]))
  = 1.
Proof.
  by rewrite (listing_failure_ends_process decimal_int ascii_lower
                (fun _ => Ok empty_bucket_client) (fun _ => Ok sales_table)
                quiet_plt (start ["1"]) (KeyError "Contents") eq_refl eq_refl).
Defined.

Lemma parse_failure_ends_process_witness :
  fst (run_process decimal_int ascii_lower (fun _ => Ok two_files_client)
         (fun _ => Raise (LibraryError "ParserError" "Error tokenizing data"))
         quiet_plt (start ["1"]))
  = 1.
Proof.
  set (prefix :=
    (files <- list_files_in_s3_bucket (fun _ => Ok two_files_client)
                "datasetentries" ;;
     print "Select a dataset to visualize:" ;;
     print_numbered 1 files ;;
     selected_file <- selection_loop decimal_int dataset_prompt files ;;
     download_file_from_s3 (fun _ => Ok two_files_client) "datasetentries"
       selected_file "/home/ec2-user/AWS_S3_FILES/") (start ["1"])).
  assert (prefix = (Ok "/home/ec2-user/AWS_S3_FILES/a.csv", snd prefix))
    as Hpre by (vm_compute; reflexivity).
  assert (fs (snd prefix) !! "/home/ec2-user/AWS_S3_FILES/a.csv"
          = Some csv_bytes) as Hfs by (vm_compute; reflexivity).
  by rewrite (parse_failure_ends_process decimal_int ascii_lower
                (fun _ => Ok two_files_client)
                (fun _ => Raise (LibraryError "ParserError"
                                   "Error tokenizing data"))
                quiet_plt (start ["1"]) (snd prefix) _ csv_bytes _
                Hpre Hfs eq_refl eq_refl).
Defined.

End MoreRuns.
